(** * FinanSmart ledger (DaviiSA/AppControle): a shallow embedding

    The ledger is a React component ([src/App.tsx], present in two variants)
    holding an array of [Transaction] records, a form component
    ([src/components/TransactionForm.tsx]) that creates records, and a
    two-function sync client ([src/services/googleSheetsService.ts]).

    Layout of this file:
    - [JS]: the host operations the code calls (Number, [parseFloat],
      [Date], [Array.prototype.sort], [String.prototype.substr]);
    - the data model of [src/types.ts];
    - the form, the sync client and the two [App] variants, as functions on
      explicit state;
    - the theorems. *)

From Stdlib Require Import ZArith List String Ascii Bool Lia Permutation Sorted.
From Stdlib Require Import Floats.
Import ListNotations.

Local Open Scope string_scope.
Local Open Scope Z_scope.

(* ================================================================== *)
(** * Host operations *)
(* ================================================================== *)

Module JS.

(** ** Number: IEEE 754 binary64, as the kernel's primitive floats. *)

Definition Number := float.

Definition isNaN (x : Number) : bool := PrimFloat.is_nan x.

(** ** parseFloat (ECMAScript, sec. parsefloat-string)

    Strings are sequences of 8-bit characters here, so the white space
    skipped in front is the ASCII part of [StrWhiteSpaceChar]. *)

Definition isWhiteSpace (c : ascii) : bool :=
  let n := Z.of_nat (nat_of_ascii c) in
  ((9 <=? n) && (n <=? 13)) || (n =? 32).

Fixpoint trimStart (s : string) : string :=
  match s with
  | String c s' => if isWhiteSpace c then trimStart s' else s
  | EmptyString => s
  end.

Definition digitValue (c : ascii) : option Z :=
  let n := Z.of_nat (nat_of_ascii c) in
  if (48 <=? n) && (n <=? 57) then Some (n - 48) else None.

(** [takeDigits acc n s] reads the longest run of decimal digits in front
    of [s]: the value read (continuing [acc]), the number of digits read
    (continuing [n]) and the rest of the string. *)
Fixpoint takeDigits (acc n : Z) (s : string) : Z * Z * string :=
  match s with
  | String c s' =>
      match digitValue c with
      | Some d => takeDigits (10 * acc + d) (n + 1) s'
      | None => (acc, n, s)
      end
  | EmptyString => (acc, n, s)
  end.

(** The value of an optional [ExponentPart] in front of [s]; a malformed
    one is not part of the longest valid prefix and counts as absent. *)
Definition exponentPart (s : string) : Z :=
  match s with
  | String c s' =>
      if Ascii.eqb c "e" || Ascii.eqb c "E" then
        let '(neg, s'') :=
          match s' with
          | String g r =>
              if Ascii.eqb g "-" then (true, r)
              else if Ascii.eqb g "+" then (false, r)
              else (false, s')
          | EmptyString => (false, s')
          end in
        let '(v, n, _) := takeDigits 0 0 s'' in
        if n =? 0 then 0 else if neg then - v else v
      else 0
  | EmptyString => 0
  end.

(** The mathematical value of the longest prefix that is a
    [StrUnsignedDecimalLiteral]: none, Infinity, or [m * 10^e]. *)
Inductive MV : Type :=
| MVNone
| MVInfinity
| MVDecimal (m e : Z).

Definition strUnsignedDecimalLiteral (s : string) : MV :=
  if String.prefix "Infinity" s then MVInfinity
  else
    let '(i, ni, r1) := takeDigits 0 0 s in
    match r1 with
    | String c r2 =>
        if Ascii.eqb c "." then
          let '(m, nf, r3) := takeDigits i 0 r2 in
          if (ni =? 0) && (nf =? 0) then MVNone
          else MVDecimal m (exponentPart r3 - nf)
        else if ni =? 0 then MVNone
        else MVDecimal i (exponentPart r1)
    | EmptyString => if ni =? 0 then MVNone else MVDecimal i 0
    end.

(** The Number value of [m * 10^e] for [0 <= m]: round to nearest, ties to
    even.  A negative exponent is a quotient: it is taken with 55
    significant bits or more and a sticky bit, then rounded once. *)
Definition ofDecimal (m e : Z) : Number :=
  if m =? 0 then PrimFloat.zero
  else if 0 <=? e then
    SF2Prim (SpecFloat.binary_normalize prec emax (m * 10 ^ e) 0 false)
  else
    let d := 10 ^ (- e) in
    let s := Z.max 0 (56 + Z.log2 d - Z.log2 m) in
    let n := m * 2 ^ s in
    let q := n / d in
    let sticky := if n mod d =? 0 then 0 else 1 in
    SF2Prim (SpecFloat.binary_normalize prec emax (2 * q + sticky) (- s - 1) false).

Definition parseFloat (inputString : string) : Number :=
  let trimmed := trimStart inputString in
  let '(neg, body) :=
    match trimmed with
    | String c r =>
        if Ascii.eqb c "-" then (true, r)
        else if Ascii.eqb c "+" then (false, r)
        else (false, trimmed)
    | EmptyString => (false, trimmed)
    end in
  match strUnsignedDecimalLiteral body with
  | MVNone => PrimFloat.nan
  | MVInfinity => if neg then PrimFloat.neg_infinity else PrimFloat.infinity
  | MVDecimal m e =>
      let v := ofDecimal m e in
      if neg then PrimFloat.opp v else v
  end.

(** ** String.prototype.substr(start, length), for [0 <= start]. *)

Definition substr (s : string) (start length : nat) : string :=
  String.substring start length s.

(** ** Date

    A Date holds a time value: milliseconds since 1970-01-01T00:00Z, or NaN
    ([None]) for an Invalid Date.  Local time is UTC plus a fixed offset
    [tz] in milliseconds (negative west of Greenwich); daylight saving
    changes are not modelled. *)

Definition TimeValue := option Z.

Definition msPerDay : Z := 86400000.

Definition isLeapYear (y : Z) : bool :=
  ((y mod 4 =? 0) && negb (y mod 100 =? 0)) || (y mod 400 =? 0).

Definition daysInMonth (y m : Z) : Z :=
  if m =? 2 then (if isLeapYear y then 29 else 28)
  else if (m =? 4) || (m =? 6) || (m =? 9) || (m =? 11) then 30
  else 31.

(** Day number of a proleptic Gregorian date, 1970-01-01 being day 0
    ([MakeDay]); the year is counted from March. *)
Definition makeDay (y m d : Z) : Z :=
  let y' := if m <=? 2 then y - 1 else y in
  let era := y' / 400 in
  let yoe := y' - era * 400 in
  let mp := (m + 9) mod 12 in
  let doy := (153 * mp + 2) / 5 + d - 1 in
  let doe := yoe * 365 + yoe / 4 - yoe / 100 + doy in
  era * 146097 + doe - 719468.

Definition digits (cs : list ascii) : option Z :=
  fold_left
    (fun acc c =>
       match acc, digitValue c with
       | Some a, Some d => Some (10 * a + d)
       | _, _ => None
       end)
    cs (Some 0).

(** [Date.parse] on the date-only form [YYYY-MM-DD] of the Date Time String
    Format, which is what a date field holds: the date at 00:00 UTC.  This
    is the whole domain of the model.  Any other string (a date-time, a
    day the month does not have, free text) falls to the host's own
    parsing, which differs between hosts; here it is an Invalid Date
    ([None]).  The theorems below therefore use [Date_parse] where it
    returns a value: on date-only strings, or under the hypothesis that
    the dates at hand parse. *)
Definition Date_parse (s : string) : TimeValue :=
  match list_ascii_of_string s with
  | [y1; y2; y3; y4; s1; m1; m2; s2; d1; d2] =>
      if Ascii.eqb s1 "-" && Ascii.eqb s2 "-" then
        match digits [y1; y2; y3; y4], digits [m1; m2], digits [d1; d2] with
        | Some y, Some m, Some d =>
            if (1 <=? m) && (m <=? 12) && (1 <=? d) && (d <=? daysInMonth y m)
            then Some (makeDay y m d * msPerDay)
            else None
        | _, _, _ => None
        end
      else None
  | _ => None
  end.

(** [d.setHours(0, 0, 0, 0)]: the start of [d]'s day in local time. *)
Definition setHours0 (tz : Z) (t : TimeValue) : TimeValue :=
  match t with
  | Some ms => Some ((ms + tz) / msPerDay * msPerDay - tz)
  | None => None
  end.

(** [a < b] on Dates compares time values; with a NaN it is false. *)
Definition Date_lt (a b : TimeValue) : bool :=
  match a, b with
  | Some x, Some y => x <? y
  | _, _ => false
  end.

(** [a.getTime() - b.getTime()]: NaN when either is NaN.  Only the sign is
    used by [sort], and the sign of the rounded difference of two time
    values is the sign of the exact one. *)
Definition timeDiff (a b : TimeValue) : option Z :=
  match a, b with
  | Some x, Some y => Some (x - y)
  | _, _ => None
  end.

(** ** Array.prototype.sort(comparefn)

    The sort is stable; an element moves behind another only when
    [comparefn] is positive on them, and a NaN result counts as +0
    ([SortCompare]).  Written as a stable insertion sort.  When
    [comparefn] is consistent (here: every date parses) the result of a
    stable sort is determined, and is this one in every host.  When it is
    not (an Invalid Date among valid ones) the order is
    implementation-defined and a host's merge sort gives another one than
    the insertion sort; the result is a permutation of the array in both.
    So a theorem about the order of a sorted view is stated for
    collections whose dates all parse; without that hypothesis the
    theorems use only that the result is a permutation, and that two
    arrays on which [comparefn] gives the same results position by
    position are put in the same order. *)

Definition positive_result (v : option Z) : bool :=
  match v with
  | Some z => 0 <? z
  | None => false
  end.

Fixpoint insert {A : Type} (comparefn : A -> A -> option Z) (x : A) (l : list A) : list A :=
  match l with
  | [] => [x]
  | y :: l' =>
      if positive_result (comparefn x y) then y :: insert comparefn x l'
      else x :: l
  end.

Fixpoint sort {A : Type} (comparefn : A -> A -> option Z) (l : list A) : list A :=
  match l with
  | [] => []
  | x :: l' => insert comparefn x (sort comparefn l')
  end.

(** [arr.reduce(f, init)]. *)
Definition reduce {A B : Type} (f : B -> A -> B) (init : B) (l : list A) : B :=
  fold_left f l init.

End JS.

Bind Scope float_scope with JS.Number.

(* ================================================================== *)
(** * Data model: src/types.ts *)
(* ================================================================== *)

Inductive TransactionType : Type :=
| RECEITA
| GASTO_FIXO
| GASTO_CARTAO
| GASTO_DIVERSO.

(** The string each member of the union is. *)
Definition TransactionType_string (ty : TransactionType) : string :=
  match ty with
  | RECEITA => "RECEITA"
  | GASTO_FIXO => "GASTO_FIXO"
  | GASTO_CARTAO => "GASTO_CARTAO"
  | GASTO_DIVERSO => "GASTO_DIVERSO"
  end.

(** [a === b] on two members of the union. *)
Definition TransactionType_eqb (a b : TransactionType) : bool :=
  match a, b with
  | RECEITA, RECEITA
  | GASTO_FIXO, GASTO_FIXO
  | GASTO_CARTAO, GASTO_CARTAO
  | GASTO_DIVERSO, GASTO_DIVERSO => true
  | _, _ => false
  end.

(** [interface Transaction]; an optional field is an [option]. *)
Record Transaction : Type := mkTransaction {
  id : string;
  description : string;
  amount : JS.Number;
  date : string;
  type : TransactionType;
  category : string;
  isPaid : bool;
  dueDate : option string;
  cardName : option string;
  installments : option string
}.

(** [Omit<Transaction, 'id'>]: what the form hands to [onAdd]. *)
Module NoId.
Record t : Type := make {
  description : string;
  amount : JS.Number;
  date : string;
  type : TransactionType;
  category : string;
  isPaid : bool;
  dueDate : option string;
  cardName : option string;
  installments : option string
}.
End NoId.

(** [{ ...data, id: x }] *)
Definition withId (data : NoId.t) (x : string) : Transaction :=
  {| id := x;
     description := NoId.description data;
     amount := NoId.amount data;
     date := NoId.date data;
     type := NoId.type data;
     category := NoId.category data;
     isPaid := NoId.isPaid data;
     dueDate := NoId.dueDate data;
     cardName := NoId.cardName data;
     installments := NoId.installments data |}.

(** [{ ...t, isPaid: b }] *)
Definition withIsPaid (t : Transaction) (b : bool) : Transaction :=
  {| id := id t;
     description := description t;
     amount := amount t;
     date := date t;
     type := type t;
     category := category t;
     isPaid := b;
     dueDate := dueDate t;
     cardName := cardName t;
     installments := installments t |}.

(** [!s] on a string: true on the empty string only. *)
Definition not_string (s : string) : bool :=
  match s with
  | EmptyString => true
  | String _ _ => false
  end.

(* ================================================================== *)
(** * The number field of the form *)
(* ================================================================== *)

(** The amount is typed into an [<input type="number">]
    (TransactionForm.tsx, line 107).  The value such a field hands to
    [onChange] is the empty string or a valid floating-point number (HTML,
    value sanitization of the Number state): an optional [-], digits with
    an optional fraction or a fraction alone, and an optional exponent. *)
Module HTML.

(** [s] is empty or a complete exponent part. *)
Definition validExponent (s : string) : bool :=
  match s with
  | EmptyString => true
  | String c r =>
      (Ascii.eqb c "e" || Ascii.eqb c "E")
      && let r' :=
           match r with
           | String g r0 => if Ascii.eqb g "-" || Ascii.eqb g "+" then r0 else r
           | EmptyString => r
           end in
         let '(_, n, rest) := JS.takeDigits 0 0 r' in
         (0 <? n) && not_string rest
  end.

(** A valid floating-point number without its sign. *)
Definition validUnsigned (body : string) : bool :=
  let '(_, ni, r1) := JS.takeDigits 0 0 body in
  match r1 with
  | String c r2 =>
      if Ascii.eqb c "." then
        let '(_, nf, r3) := JS.takeDigits 0 0 r2 in
        (0 <? nf) && validExponent r3
      else (0 <? ni) && validExponent r1
  | EmptyString => 0 <? ni
  end.

Definition validFloatingPointNumber (s : string) : bool :=
  match s with
  | String c r => if Ascii.eqb c "-" then validUnsigned r else validUnsigned s
  | EmptyString => false
  end.

(** What the [value] of a number field can be. *)
Definition isNumberInputValue (v : string) : bool :=
  not_string v || validFloatingPointNumber v.

End HTML.

(* ================================================================== *)
(** * The form: src/components/TransactionForm.tsx *)
(* ================================================================== *)

Module TransactionForm.

(** The six [useState] cells of the component.  [amount] is the text of
    the number field, [date] the text of the date field. *)
Record State : Type := mkState {
  description : string;
  amount : string;
  date : string;
  type : TransactionType;
  cardName : string;
  installments : string
}.

Section Props.
(** The parent's state and the two callbacks of [Props]. *)
Context {Parent : Type}.
Variable onAdd : NoId.t -> Parent -> Parent.
Variable onClose : Parent -> Parent.

Definition handleSubmit (f : State) (parent : Parent) : Parent :=
  if not_string (description f) || not_string (amount f) || not_string (date f)
  then parent
  else
    onClose
      (onAdd
         {| NoId.description := description f;
            NoId.amount := JS.parseFloat (amount f);
            NoId.date := date f;
            NoId.type := type f;
            NoId.category := TransactionType_string (type f);
            NoId.isPaid := TransactionType_eqb (type f) RECEITA;
            NoId.dueDate := Some (date f);
            NoId.cardName :=
              if TransactionType_eqb (type f) GASTO_CARTAO
              then Some (cardName f) else None;
            NoId.installments :=
              if TransactionType_eqb (type f) GASTO_CARTAO
              then Some (installments f) else None |}
         parent).
End Props.

End TransactionForm.

(* ================================================================== *)
(** * The sync client: src/services/googleSheetsService.ts *)
(* ================================================================== *)

Module googleSheetsService.

(** What [fetch(url)] resolves to: the [ok] flag of the response and what
    [response.json()] gives, [None] when the body is not JSON and the
    promise rejects.  The body is typed as the code types it,
    [Transaction[]]; nothing in it is checked. *)
Record Response : Type := mkResponse {
  ok : bool;
  json : option (list Transaction)
}.

(** The network: [None] when [fetch] itself rejects. *)
Definition Fetch : Type := string -> option Response.

Inductive Thrown : Type :=
| TransportError
| Error (message : string)
| SyntaxError.

(** [loadFromGoogleSheets(url)]: [inl] is a rejected promise (the [catch]
    block logs and rethrows). *)
Definition loadFromGoogleSheets (fetch : Fetch) (url : string)
  : Thrown + list Transaction :=
  match fetch url with
  | None => inl TransportError
  | Some response =>
      if negb (ok response) then inl (Error "Falha ao carregar dados")
      else
        match json response with
        | Some data => inr data
        | None => inl SyntaxError
        end
  end.

End googleSheetsService.

(* ================================================================== *)
(** * The component: src/App.tsx *)
(* ================================================================== *)

Inductive SyncStatus : Type := idle | success | error.

(** The [useState] cells of [App] that the handlers touch, and the alerts
    shown so far (most recent first).  The view switch of the first
    variant and the two [useEffect] hooks that copy [transactions] and
    [sheetUrl] to [localStorage] after a change are left out: no handler
    below reads them. *)
Record AppState : Type := mkAppState {
  transactions : list Transaction;
  isFormOpen : bool;
  sheetUrl : string;
  isSyncing : bool;
  syncStatus : SyncStatus;
  alerts : list string
}.

Definition setTransactions (v : list Transaction) (st : AppState) : AppState :=
  {| transactions := v;
     isFormOpen := isFormOpen st;
     sheetUrl := sheetUrl st;
     isSyncing := isSyncing st;
     syncStatus := syncStatus st;
     alerts := alerts st |}.

Definition setIsFormOpen (v : bool) (st : AppState) : AppState :=
  {| transactions := transactions st;
     isFormOpen := v;
     sheetUrl := sheetUrl st;
     isSyncing := isSyncing st;
     syncStatus := syncStatus st;
     alerts := alerts st |}.

Definition setIsSyncing (v : bool) (st : AppState) : AppState :=
  {| transactions := transactions st;
     isFormOpen := isFormOpen st;
     sheetUrl := sheetUrl st;
     isSyncing := v;
     syncStatus := syncStatus st;
     alerts := alerts st |}.

Definition alert (message : string) (st : AppState) : AppState :=
  {| transactions := transactions st;
     isFormOpen := isFormOpen st;
     sheetUrl := sheetUrl st;
     isSyncing := isSyncing st;
     syncStatus := syncStatus st;
     alerts := message :: alerts st |}.

(** The clock and the time zone the component runs in: [now] is the time
    value of [new Date()], [tz] the local offset from UTC in milliseconds
    (-10800000 in Brasilia, three hours behind UTC). *)
Record Clock : Type := mkClock {
  tz : Z;
  now : Z
}.

(** ** What the two variants of App.tsx share

    Lines 28-36, 69-80 and 170 of the first variant are repeated at lines
    494-502, 537-549 and 791 of the second (the confirmation texts apart). *)

Definition togglePaid (id0 : string) (st : AppState) : AppState :=
  setTransactions
    (map (fun t => if String.eqb (id t) id0 then withIsPaid t (negb (isPaid t)) else t)
         (transactions st))
    st.

(** [confirmed] is the user's answer to [confirm(...)]. *)
Definition deleteTransaction (confirmed : bool) (id0 : string) (st : AppState) : AppState :=
  if confirmed
  then setTransactions (filter (fun t => negb (String.eqb (id t) id0)) (transactions st)) st
  else st.

Definition isOverdue (clock : Clock) (dateStr : string) (isPaid : bool) : bool :=
  if isPaid then false
  else
    let today := JS.setHours0 (tz clock) (Some (now clock)) in
    let dueDate := JS.setHours0 (tz clock) (JS.Date_parse dateStr) in
    JS.Date_lt dueDate today.

Definition sortedTransactions (transactions : list Transaction) : list Transaction :=
  JS.sort
    (fun a b => JS.timeDiff (JS.Date_parse (date a)) (JS.Date_parse (date b)))
    transactions.

(** The [onAdd] prop handed to the form; [random36] is the string
    [Math.random().toString(36)] of this call. *)
Definition onAdd (random36 : string) (data : NoId.t) (st : AppState) : AppState :=
  setTransactions (withId data (JS.substr random36 2 9) :: transactions st) st.

(** The [onClose] prop. *)
Definition onClose (st : AppState) : AppState := setIsFormOpen false st.

(** A submit of the form mounted by [App]: the ledger's [add]. *)
Definition add (random36 : string) (f : TransactionForm.State) (st : AppState) : AppState :=
  TransactionForm.handleSubmit (onAdd random36) onClose f st.

(** [t.cardName === name] *)
Definition cardName_is (name : string) (t : Transaction) : bool :=
  match cardName t with
  | Some c => String.eqb c name
  | None => false
  end.

(** [t.type === ty] *)
Definition type_is (ty : TransactionType) (t : Transaction) : bool :=
  TransactionType_eqb (type t) ty.

(** [(a, b) => a + b.amount] from 0. *)
Definition sumAmounts (l : list Transaction) : JS.Number :=
  JS.reduce (fun a b => PrimFloat.add a (amount b)) PrimFloat.zero l.

Record Totals : Type := mkTotals {
  income : JS.Number;
  expenses : JS.Number;
  balance : JS.Number;
  fixedPending : JS.Number;
  cardsPending : JS.Number
}.

(** ** First variant (lines 1-469: home view and dashboard) *)

Module App.

Definition handleLoad (fetch : googleSheetsService.Fetch) (confirmed : bool)
    (st : AppState) : AppState :=
  if not_string (sheetUrl st) then st
  else if negb confirmed then st
  else
    let st1 := setIsSyncing true st in
    let st2 :=
      match googleSheetsService.loadFromGoogleSheets fetch (sheetUrl st) with
      | inr data => setTransactions data st1
      | inl _ => alert "Erro ao carregar dados." st1
      end in
    setIsSyncing false st2.

Record Grouped : Type := mkGrouped {
  receitas : list Transaction;
  gastosFixos : list Transaction;
  gastosCartoes : list Transaction;
  cartoes : list (string * list Transaction)
}.

Definition grouped (transactions : list Transaction) : Grouped :=
  let sorted := sortedTransactions transactions in
  {| receitas := rev (filter (type_is RECEITA) sorted);
     gastosFixos := filter (type_is GASTO_FIXO) sorted;
     gastosCartoes := filter (type_is GASTO_CARTAO) sorted;
     cartoes :=
       [ ("BaneseCard", filter (cardName_is "BaneseCard") sorted);
         ("Nubank Davi", filter (cardName_is "Nubank Davi") sorted);
         ("Torra", filter (cardName_is "Torra") sorted);
         ("Iti Tuy", filter (cardName_is "Iti Tuy") sorted) ] |}.

Definition totals (transactions : list Transaction) : Totals :=
  let g := grouped transactions in
  let income := sumAmounts (receitas g) in
  let expenses :=
    sumAmounts (filter (fun t => negb (type_is RECEITA t)) transactions) in
  let fixedPending :=
    sumAmounts (filter (fun t => negb (isPaid t)) (gastosFixos g)) in
  let cardsPending :=
    sumAmounts (filter (fun t => negb (isPaid t)) (gastosCartoes g)) in
  {| income := income;
     expenses := expenses;
     balance := PrimFloat.sub income expenses;
     fixedPending := fixedPending;
     cardsPending := cardsPending |}.

End App.

(** ** Second variant (lines 471-842: the spreadsheet view) *)

Module AppPro.

Definition handleLoad (fetch : googleSheetsService.Fetch) (confirmed : bool)
    (st : AppState) : AppState :=
  if not_string (sheetUrl st) then st
  else if negb confirmed then st
  else
    let st1 := setIsSyncing true st in
    let st2 :=
      match googleSheetsService.loadFromGoogleSheets fetch (sheetUrl st) with
      | inr data => alert "Dados carregados com sucesso!" (setTransactions data st1)
      | inl _ =>
          alert "Erro ao carregar dados. Verifique a URL do seu Google Apps Script." st1
      end in
    setIsSyncing false st2.

Record Grouped : Type := mkGrouped {
  receitas : list Transaction;
  gastosFixos : list Transaction;
  gastosCartoes : list Transaction;
  gastosDiversos : list Transaction;
  cartoesDetalhe : list (string * list Transaction)
}.

Definition grouped (transactions : list Transaction) : Grouped :=
  let sorted := sortedTransactions transactions in
  {| receitas := rev (filter (type_is RECEITA) sorted);
     gastosFixos := filter (type_is GASTO_FIXO) sorted;
     gastosCartoes := filter (type_is GASTO_CARTAO) sorted;
     gastosDiversos := filter (type_is GASTO_DIVERSO) sorted;
     cartoesDetalhe :=
       [ ("BaneseCard", filter (cardName_is "BaneseCard") sorted);
         ("Nubank Davi", filter (cardName_is "Nubank Davi") sorted);
         ("Torra", filter (cardName_is "Torra") sorted);
         ("Iti Tuy", filter (cardName_is "Iti Tuy") sorted) ] |}.

Definition totals (transactions : list Transaction) : Totals :=
  let g := grouped transactions in
  let income := sumAmounts (receitas g) in
  let fixed := sumAmounts (gastosFixos g) in
  let cards := sumAmounts (gastosCartoes g) in
  let divers := sumAmounts (gastosDiversos g) in
  let fixedPending :=
    sumAmounts (filter (fun t => negb (isPaid t)) (gastosFixos g)) in
  let cardsPending :=
    sumAmounts (filter (fun t => negb (isPaid t)) (gastosCartoes g)) in
  {| income := income;
     expenses := PrimFloat.add (PrimFloat.add fixed cards) divers;
     balance := PrimFloat.sub income (PrimFloat.add (PrimFloat.add fixed cards) divers);
     fixedPending := fixedPending;
     cardsPending := cardsPending |}.

End AppPro.

(** ** Vocabulary of the specification *)

(** Lookup by id, which the specification speaks of and the code has no
    function for: the first record of the collection carrying the id. *)
Definition lookup (id0 : string) (l : list Transaction) : option Transaction :=
  find (fun t => String.eqb (id t) id0) l.

(** What [togglePaid id0] does to one record: the function it maps over
    the collection. *)
Definition toggled (id0 : string) (t : Transaction) : Transaction :=
  if String.eqb (id t) id0 then withIsPaid t (negb (isPaid t)) else t.

(** The configured card names. *)
Definition configuredCards : list string :=
  ["BaneseCard"; "Nubank Davi"; "Torra"; "Iti Tuy"].

(** The record a submit creates from the fields [f] and the id [x]. *)
Definition created (x : string) (f : TransactionForm.State) : Transaction :=
  {| id := x;
     description := TransactionForm.description f;
     amount := JS.parseFloat (TransactionForm.amount f);
     date := TransactionForm.date f;
     type := TransactionForm.type f;
     category := TransactionType_string (TransactionForm.type f);
     isPaid := TransactionType_eqb (TransactionForm.type f) RECEITA;
     dueDate := Some (TransactionForm.date f);
     cardName :=
       if TransactionType_eqb (TransactionForm.type f) GASTO_CARTAO
       then Some (TransactionForm.cardName f) else None;
     installments :=
       if TransactionType_eqb (TransactionForm.type f) GASTO_CARTAO
       then Some (TransactionForm.installments f) else None |}.

(** The buckets of either variant: one per configured card, each holding
    the records of the snapshot that carry that card name. *)
Definition buckets_ok (txs : list Transaction) (buckets : list (string * list Transaction)) : Prop :=
  map fst buckets = configuredCards
  /\ forall name items,
       In (name, items) buckets ->
       Permutation items (filter (cardName_is name) txs).

(** The number of the local calendar day an instant falls in. *)
Definition localDay (tz ms : Z) : Z := (ms + tz) / JS.msPerDay.

(** Two records in ascending order of date. *)
Definition ascending (a b : Transaction) : Prop :=
  match JS.Date_parse (date a), JS.Date_parse (date b) with
  | Some x, Some y => x <= y
  | _, _ => False
  end.

(* ================================================================== *)
(** * More of the code: the push, the form's first state, what the
      views derive *)
(* ================================================================== *)

Definition setSyncStatus (v : SyncStatus) (st : AppState) : AppState :=
  {| transactions := transactions st;
     isFormOpen := isFormOpen st;
     sheetUrl := sheetUrl st;
     isSyncing := isSyncing st;
     syncStatus := v;
     alerts := alerts st |}.

(** ** [new Date().toISOString().split('T')[0]]

    The date part of the ISO string of a time value: the UTC calendar date,
    with a four-digit year from 0000 to 9999 and a signed six-digit year
    outside.  The string has no ['T'] before the one that ends the date. *)
Module ISO.

(** The civil date of a day number, 1970-01-01 being day 0: the inverse of
    [JS.makeDay], the year counted from March as there. *)
Definition civilFromDays (day : Z) : Z * Z * Z :=
  let z := day + 719468 in
  let era := z / 146097 in
  let doe := z - era * 146097 in
  let yoe := (doe - doe / 1460 + doe / 36524 - doe / 146096) / 365 in
  let doy := doe - (365 * yoe + yoe / 4 - yoe / 100) in
  let mp := (5 * doy + 2) / 153 in
  let d := doy - (153 * mp + 2) / 5 + 1 in
  let m := if mp <? 10 then mp + 3 else mp - 9 in
  (if m <=? 2 then yoe + era * 400 + 1 else yoe + era * 400, m, d).

Definition digitChar (d : Z) : ascii := ascii_of_nat (Z.to_nat (48 + d)).

(** The last [width] decimal digits of [n], in front of [acc]. *)
Fixpoint padDigits (width : nat) (n : Z) (acc : string) : string :=
  match width with
  | O => acc
  | S w => padDigits w (n / 10) (String (digitChar (n mod 10)) acc)
  end.

Definition year (y : Z) : string :=
  if (0 <=? y) && (y <=? 9999) then padDigits 4 y ""
  else String (if y <? 0 then "-"%char else "+"%char) (padDigits 6 (Z.abs y) "").

Definition datePart (t : Z) : string :=
  let '(y, m, d) := civilFromDays (t / JS.msPerDay) in
  year y ++ "-" ++ padDigits 2 m "" ++ "-" ++ padDigits 2 d "".

End ISO.

(** The six cells of the form when it is mounted at the time [now]
    (TransactionForm.tsx, lines 11-16). *)
Definition TransactionForm_initial (now : Z) : TransactionForm.State :=
  TransactionForm.mkState "" "" (ISO.datePart now) GASTO_FIXO "" "".

(** ** The push: googleSheetsService.ts, lines 4-19, and [handleSync]

    [fetch(url, { method: 'POST', mode: 'no-cors', ..., body })]: [None]
    when it rejects.  The body is [JSON.stringify(transactions)]; it is
    kept here as the collection it is made from. *)
Definition Post : Type :=
  string -> list Transaction -> option googleSheetsService.Response.

Definition syncToGoogleSheets (post : Post) (url : string)
    (transactions : list Transaction) : googleSheetsService.Thrown + bool :=
  match post url transactions with
  | Some _ => inr true
  | None => inl googleSheetsService.TransportError
  end.

(** What a call of [handleSync] leaves behind: the state, the requests it
    issued (endpoint and body), and the delays of the timers it set, each
    of which runs [setSyncStatus('idle')].  As for [handleLoad], the call
    is taken alone: no other handler runs while it waits for the
    network. *)
Record Synced : Type := mkSynced {
  after : AppState;
  requests : list (string * list Transaction);
  timers : list Z
}.

(** First variant, lines 38-53. *)
Definition App_handleSync (post : Post) (st : AppState) : Synced :=
  if not_string (sheetUrl st) then
    {| after := alert "Configure a URL da Planilha nas configurações." st;
       requests := [];
       timers := [] |}
  else
    let st1 := setIsSyncing true st in
    match syncToGoogleSheets post (sheetUrl st) (transactions st) with
    | inr _ =>
        {| after := setIsSyncing false (setSyncStatus success st1);
           requests := [(sheetUrl st, transactions st)];
           timers := [3000] |}
    | inl _ =>
        {| after := setIsSyncing false (setSyncStatus error st1);
           requests := [(sheetUrl st, transactions st)];
           timers := [] |}
    end.

(** Second variant, lines 504-520: the failure is also announced. *)
Definition AppPro_handleSync (post : Post) (st : AppState) : Synced :=
  if not_string (sheetUrl st) then
    {| after := alert "Por favor, configure a URL da Planilha primeiro." st;
       requests := [];
       timers := [] |}
  else
    let st1 := setIsSyncing true st in
    match syncToGoogleSheets post (sheetUrl st) (transactions st) with
    | inr _ =>
        {| after := setIsSyncing false (setSyncStatus success st1);
           requests := [(sheetUrl st, transactions st)];
           timers := [3000] |}
    | inl _ =>
        {| after :=
             setIsSyncing false
               (alert "Erro ao sincronizar. Verifique se a URL do Apps Script está correta e permite acesso."
                  (setSyncStatus error st1));
           requests := [(sheetUrl st, transactions st)];
           timers := [] |}
    end.

(** ** What the views derive from a bucket and from the totals *)

(** The overdue banner of both variants (lines 237 and 638):
    [transactions.some(t => isOverdue(t.date, t.isPaid))]. *)
Definition overdueAlert (clock : Clock) (transactions : list Transaction) : bool :=
  existsb (fun t => isOverdue clock (date t) (isPaid t)) transactions.

(** A row of the card summary of the second variant (lines 738-751):
    [None] when the row is not rendered. *)
Record CardRow : Type := mkCardRow {
  cardTotal : JS.Number;
  rowIsPaid : bool;
  hasOverdue : bool
}.

Definition AppPro_cardRow (clock : Clock) (items : list Transaction) : option CardRow :=
  let cardTotal := sumAmounts items in
  let isPaid' := (0 <? Z.of_nat (List.length items)) && forallb isPaid items in
  let hasOverdue := existsb (fun i => isOverdue clock (date i) (isPaid i)) items in
  if PrimFloat.eqb cardTotal PrimFloat.zero then None
  else Some {| cardTotal := cardTotal; rowIsPaid := isPaid'; hasOverdue := hasOverdue |}.

(** The colour of the dot of a rendered row (line 749). *)
Inductive Dot : Type := green | red_overdue | red_pending.

Definition AppPro_dot (row : CardRow) : Dot :=
  if rowIsPaid row then green
  else if hasOverdue row then red_overdue
  else red_pending.

(** A card of the first variant (lines 332-336): the total and the overdue
    mark, [None] when the bucket is empty. *)
Definition App_card (clock : Clock) (items : list Transaction) : option (JS.Number * bool) :=
  if (Z.of_nat (List.length items) =? 0) then None
  else
    Some (sumAmounts items,
          existsb (fun i => isOverdue clock (date i) (isPaid i)) items).

(** ** Sequences of local operations *)

(** The record invariants a submit of the form establishes. *)
Definition wellFormed (t : Transaction) : Prop :=
  description t <> ""
  /\ date t <> ""
  /\ category t = TransactionType_string (type t)
  /\ dueDate t = Some (date t)
  /\ (cardName t <> None <-> type t = GASTO_CARTAO)
  /\ (installments t <> None <-> type t = GASTO_CARTAO).

(** The handlers that work on the local collection, with what each call
    takes from outside. *)
Inductive LocalOp : Type :=
| OpAdd (random36 : string) (f : TransactionForm.State)
| OpToggle (id0 : string)
| OpDelete (confirmed : bool) (id0 : string)
| OpSync (post : Post)
| OpSyncPro (post : Post).

Definition runOp (op : LocalOp) (st : AppState) : AppState :=
  match op with
  | OpAdd random36 f => add random36 f st
  | OpToggle id0 => togglePaid id0 st
  | OpDelete confirmed id0 => deleteTransaction confirmed id0 st
  | OpSync post => after (App_handleSync post st)
  | OpSyncPro post => after (AppPro_handleSync post st)
  end.

Definition run (ops : list LocalOp) (st : AppState) : AppState :=
  fold_left (fun s op => runOp op s) ops st.

(** Two records in descending order of date. *)
Definition descending (a b : Transaction) : Prop := ascending b a.

(** [t]'s date is the instant [k]. *)
Definition dated (k : Z) (t : Transaction) : bool :=
  match JS.Date_parse (date t) with
  | Some x => x =? k
  | None => false
  end.

(* ================================================================== *)
(** * Sanity checks of the host operations *)
(* ================================================================== *)

Example parseFloat_samples :
  JS.parseFloat "1500" = 1500%float
  /\ JS.parseFloat "  -12.50xyz" = (-12.5)%float
  /\ JS.parseFloat ".5" = 0.5%float
  /\ JS.parseFloat "5.e3" = 5000%float
  /\ JS.parseFloat "9007199254740993" = 9007199254740992%float
  /\ JS.parseFloat "1e400" = PrimFloat.infinity
  /\ JS.parseFloat "-Infinity" = PrimFloat.neg_infinity
  /\ JS.parseFloat "." = PrimFloat.nan
  /\ JS.parseFloat "abc" = PrimFloat.nan
  /\ JS.parseFloat "" = PrimFloat.nan.
Proof. vm_compute. repeat split. Qed.

Example Date_parse_samples :
  JS.Date_parse "1970-01-01" = Some 0
  /\ JS.Date_parse "2024-01-10" = Some 1704844800000
  /\ JS.Date_parse "1969-12-31" = Some (- 86400000)
  /\ JS.Date_parse "2024-02-29" = Some 1709164800000.
Proof. vm_compute. repeat split. Qed.

Example validFloatingPointNumber_samples :
  map HTML.validFloatingPointNumber
    ["1500"; "12.50"; "-.5"; "1e5"; "1.5E+3"; "5."; "."; "+5"; " 5"; "1e"; "abc"; "12,50"; ""]
  = [true; true; true; true; true; false; false; false; false; false; false; false; false].
Proof. reflexivity. Qed.

(* ================================================================== *)
(** * Lists, sorting and sums *)
(* ================================================================== *)

Section ListFacts.
Context {A : Type}.

Lemma filter_Permutation (p : A -> bool) (l l' : list A) :
  Permutation l l' -> Permutation (filter p l) (filter p l').
Proof.
  induction 1 as [ | x l l' _ IH | x y l | l l' l'' _ IH1 _ IH2 ]; simpl.
  - constructor.
  - destruct (p x); [ constructor | ]; exact IH.
  - destruct (p x), (p y); try apply Permutation_refl. constructor.
  - eapply Permutation_trans; eassumption.
Qed.

Lemma filter_filter_and (p q : A -> bool) (l : list A) :
  filter p (filter q l) = filter (fun x => q x && p x) l.
Proof.
  induction l as [ | x l IH ]; simpl; [ reflexivity | ].
  destruct (q x); simpl; [ destruct (p x) | ]; rewrite IH; reflexivity.
Qed.


Lemma filter_all (p : A -> bool) (l : list A) :
  (forall x, In x l -> p x = true) -> filter p l = l.
Proof.
  induction l as [ | x l IH ]; simpl; intros H; [ reflexivity | ].
  rewrite (H x (or_introl eq_refl)). f_equal. apply IH. intros y Hy. apply H. now right.
Qed.

Lemma map_fixed (f : A -> A) (l : list A) :
  (forall x, In x l -> f x = x) -> map f l = l.
Proof.
  induction l as [ | x l IH ]; simpl; intros H; [ reflexivity | ].
  rewrite (H x (or_introl eq_refl)). f_equal. apply IH. intros y Hy. apply H. now right.
Qed.

(** Insertion keeps every element, and so does the sort. *)
Lemma insert_Permutation (cmp : A -> A -> option Z) (x : A) (l : list A) :
  Permutation (JS.insert cmp x l) (x :: l).
Proof.
  induction l as [ | y l IH ]; simpl; [ apply Permutation_refl | ].
  destruct (JS.positive_result (cmp x y)); [ | apply Permutation_refl ].
  eapply Permutation_trans; [ apply perm_skip, IH | apply perm_swap ].
Qed.

Lemma sort_Permutation (cmp : A -> A -> option Z) (l : list A) :
  Permutation (JS.sort cmp l) l.
Proof.
  induction l as [ | x l IH ]; simpl; [ constructor | ].
  eapply Permutation_trans; [ apply insert_Permutation | apply perm_skip, IH ].
Qed.


End ListFacts.

Lemma sortedTransactions_Permutation (l : list Transaction) :
  Permutation (sortedTransactions l) l.
Proof. apply sort_Permutation. Qed.

Lemma sortedTransactions_In (l : list Transaction) (t : Transaction) :
  In t (sortedTransactions l) <-> In t l.
Proof.
  split; apply Permutation_in;
    [ | apply Permutation_sym ]; apply sortedTransactions_Permutation.
Qed.

Lemma TransactionType_eqb_eq (a b : TransactionType) :
  TransactionType_eqb a b = true <-> a = b.
Proof. destruct a, b; simpl; split; intros H; congruence. Qed.


Lemma not_string_true (s : string) : not_string s = true <-> s = "".
Proof. destruct s; simpl; split; intros H; congruence. Qed.

Lemma not_string_false (s : string) : not_string s = false <-> s <> "".
Proof. destruct s; simpl; split; intros H; congruence. Qed.

Lemma setTransactions_same (st : AppState) :
  setTransactions (transactions st) st = st.
Proof. destruct st; reflexivity. Qed.

(** With valid dates the comparison is consistent and the result is in
    ascending order of date. *)
Lemma insert_ascending (x : Transaction) (l : list Transaction) :
  JS.Date_parse (date x) <> None ->
  Forall (fun t => JS.Date_parse (date t) <> None) l ->
  Sorted ascending l ->
  Sorted ascending
    (JS.insert
       (fun a b => JS.timeDiff (JS.Date_parse (date a)) (JS.Date_parse (date b)))
       x l).
Proof.
  intros Hx Hl Hs. induction l as [ | y l IH ]; simpl.
  - repeat constructor.
  - inversion Hl as [ | ? ? Hy Hl' ]; subst.
    inversion Hs as [ | ? ? Hs' Hhd ]; subst.
    destruct (JS.Date_parse (date x)) as [ tx | ] eqn:Ex; [ | now elim Hx ].
    destruct (JS.Date_parse (date y)) as [ ty | ] eqn:Ey; [ | now elim Hy ].
    simpl. destruct (Z.ltb_spec 0 (tx - ty)) as [ Hgt | Hle ].
    + constructor; [ now apply IH | ].
      destruct l as [ | z l ]; simpl.
      * constructor. unfold ascending. rewrite Ex, Ey. lia.
      * inversion Hhd as [ | ? ? Hyz ]; subst.
        destruct (JS.positive_result _); constructor; [ exact Hyz | ].
        unfold ascending. rewrite Ex, Ey. lia.
    + constructor; [ exact Hs | ]. constructor.
      unfold ascending. rewrite Ex, Ey. lia.
Qed.

Lemma sortedTransactions_ascending (l : list Transaction) :
  Forall (fun t => JS.Date_parse (date t) <> None) l ->
  Sorted ascending (sortedTransactions l).
Proof.
  induction l as [ | x l IH ]; intros H; [ constructor | ].
  inversion H as [ | ? ? Hx Hl ]; subst.
  apply insert_ascending; [ exact Hx | | apply IH, Hl ].
  apply Forall_forall. intros t Ht.
  apply (proj1 (sortedTransactions_In l t)) in Ht.
  revert t Ht. now apply Forall_forall.
Qed.

(** Records of one date keep the order they had. *)
Example sortedTransactions_sample :
  let r i d := mkTransaction i "" 0 d GASTO_DIVERSO "" false None None None in
  map id
    (sortedTransactions
       [r "a" "2024-03-01"; r "b" "2024-01-15"; r "c" "2024-03-01"; r "d" "2023-12-31"])
  = ["d"; "b"; "a"; "c"].
Proof. reflexivity. Qed.

(* ================================================================== *)
(** * togglePaid and deleteTransaction *)
(* ================================================================== *)

Lemma togglePaid_transactions (id0 : string) (st : AppState) :
  transactions (togglePaid id0 st) = map (toggled id0) (transactions st).
Proof. reflexivity. Qed.

Lemma toggled_toggled (id0 : string) (t : Transaction) :
  toggled id0 (toggled id0 t) = t.
Proof.
  unfold toggled. destruct (String.eqb (id t) id0) eqn:E; simpl.
  - rewrite E. destruct t; unfold withIsPaid; simpl. now rewrite negb_involutive.
  - now rewrite E.
Qed.

Lemma toggled_other (id0 : string) (t : Transaction) :
  id t <> id0 -> toggled id0 t = t.
Proof. intros H. unfold toggled. apply String.eqb_neq in H. now rewrite H. Qed.

Lemma toggled_fields (id0 : string) (t : Transaction) :
  id (toggled id0 t) = id t
  /\ description (toggled id0 t) = description t
  /\ amount (toggled id0 t) = amount t
  /\ date (toggled id0 t) = date t
  /\ type (toggled id0 t) = type t
  /\ category (toggled id0 t) = category t
  /\ dueDate (toggled id0 t) = dueDate t
  /\ cardName (toggled id0 t) = cardName t
  /\ installments (toggled id0 t) = installments t.
Proof. unfold toggled. destruct (String.eqb (id t) id0); repeat split. Qed.

Lemma toggled_isPaid (id0 : string) (t : Transaction) :
  isPaid (toggled id0 t)
  = if String.eqb (id t) id0 then negb (isPaid t) else isPaid t.
Proof. unfold toggled. destruct (String.eqb (id t) id0); reflexivity. Qed.

Lemma unknown_id_neq (id0 : string) (l : list Transaction) (t : Transaction) :
  ~ In id0 (map id l) -> In t l -> id t <> id0.
Proof. intros Hn Ht E. apply Hn. rewrite <- E. now apply in_map. Qed.

(** C7.  [togglePaid] is an involution: two calls in a row with the same id
    give back the state they started from, so the record carrying that id
    (at whatever position) has its original [isPaid] value again. *)
Theorem togglePaid_involution (id0 : string) (st : AppState) :
  togglePaid id0 (togglePaid id0 st) = st
  /\ (forall i t,
        nth_error (transactions st) i = Some t -> id t = id0 ->
        option_map isPaid
          (nth_error (transactions (togglePaid id0 (togglePaid id0 st))) i)
        = Some (isPaid t)).
Proof.
  assert (E : togglePaid id0 (togglePaid id0 st) = st).
  { unfold togglePaid at 1. rewrite togglePaid_transactions.
    fold (toggled id0). rewrite map_map.
    rewrite (map_fixed (fun x => toggled id0 (toggled id0 x)))
      by (intros; apply toggled_toggled).
    destruct st; reflexivity. }
  split; [ exact E | ].
  intros i t Hi _. rewrite E, Hi. reflexivity.
Qed.

Lemma togglePaid_involution_witness :
  let t := mkTransaction "k3x" "Rent" 1500 "2024-01-10" GASTO_FIXO "GASTO_FIXO"
             false (Some "2024-01-10") None None in
  let st := mkAppState [t] false "" false idle [] in
  option_map isPaid
    (nth_error (transactions (togglePaid "k3x" (togglePaid "k3x" st))) 0)
  = Some false.
Proof.
  intros t st.
  exact (proj2 (togglePaid_involution "k3x" st) 0%nat t eq_refl eq_refl).
Defined.

(** C10.  [togglePaid] touches nothing but [isPaid] of the records carrying
    the id: the collection keeps its length and order, every record keeps
    its nine other fields, a record with another id is unchanged, and the
    rest of the component state is unchanged. *)
Theorem togglePaid_frame (id0 : string) (st : AppState) :
  List.length (transactions (togglePaid id0 st)) = List.length (transactions st)
  /\ (forall i t,
        nth_error (transactions st) i = Some t ->
        exists t',
          nth_error (transactions (togglePaid id0 st)) i = Some t'
          /\ id t' = id t
          /\ description t' = description t
          /\ amount t' = amount t
          /\ date t' = date t
          /\ type t' = type t
          /\ category t' = category t
          /\ dueDate t' = dueDate t
          /\ cardName t' = cardName t
          /\ installments t' = installments t
          /\ isPaid t' = (if String.eqb (id t) id0 then negb (isPaid t) else isPaid t)
          /\ (id t <> id0 -> t' = t))
  /\ isFormOpen (togglePaid id0 st) = isFormOpen st
  /\ sheetUrl (togglePaid id0 st) = sheetUrl st
  /\ isSyncing (togglePaid id0 st) = isSyncing st
  /\ syncStatus (togglePaid id0 st) = syncStatus st
  /\ alerts (togglePaid id0 st) = alerts st.
Proof.
  rewrite togglePaid_transactions. split; [ apply length_map | ].
  split; [ | repeat split ].
  intros i t Hi. exists (toggled id0 t).
  split; [ now apply map_nth_error | ].
  destruct (toggled_fields id0 t) as (F1 & F2 & F3 & F4 & F5 & F6 & F7 & F8 & F9).
  repeat (split; [ assumption | ]).
  split; [ apply toggled_isPaid | apply toggled_other ].
Qed.

Lemma togglePaid_frame_witness :
  let t := mkTransaction "k3x" "Rent" 1500 "2024-01-10" GASTO_FIXO "GASTO_FIXO"
             false (Some "2024-01-10") None None in
  let u := mkTransaction "p0q" "Salary" 5000 "2024-01-05" RECEITA "RECEITA"
             true (Some "2024-01-05") None None in
  let st := mkAppState [u; t] false "" false idle [] in
  exists t',
    nth_error (transactions (togglePaid "k3x" st)) 0 = Some t'
    /\ id t' = id u
    /\ description t' = description u
    /\ amount t' = amount u
    /\ date t' = date u
    /\ type t' = type u
    /\ category t' = category u
    /\ dueDate t' = dueDate u
    /\ cardName t' = cardName u
    /\ installments t' = installments u
    /\ isPaid t' = (if String.eqb (id u) "k3x" then negb (isPaid u) else isPaid u)
    /\ (id u <> "k3x" -> t' = u).
Proof.
  intros t u st.
  exact (proj1 (proj2 (togglePaid_frame "k3x" st)) 0%nat u eq_refl).
Defined.

(** C8.  [deleteTransaction] is idempotent, whatever the user answers to
    the two confirmations (two calls amount to one that is confirmed when
    either was), and with an id that no record carries both
    [deleteTransaction] and [togglePaid] leave the state as it is.  Both
    are total functions: no call raises. *)
Theorem deleteTransaction_idempotent_unknown_id_noop (id0 : string) (st : AppState) :
  deleteTransaction true id0 (deleteTransaction true id0 st)
  = deleteTransaction true id0 st
  /\ (forall c1 c2,
        deleteTransaction c2 id0 (deleteTransaction c1 id0 st)
        = deleteTransaction (c1 || c2) id0 st)
  /\ (~ In id0 (map id (transactions st)) ->
      (forall c, deleteTransaction c id0 st = st) /\ togglePaid id0 st = st).
Proof.
  assert (I : deleteTransaction true id0 (deleteTransaction true id0 st)
              = deleteTransaction true id0 st).
  { unfold deleteTransaction, setTransactions; simpl.
    rewrite filter_filter_and.
    f_equal. apply filter_ext. intros t. now rewrite andb_diag. }
  split; [ exact I | split ].
  - intros [ | ] [ | ]; simpl; try reflexivity. exact I.
  - intros Hn. split.
    + intros [ | ]; simpl; [ | reflexivity ].
      rewrite filter_all; [ apply setTransactions_same | ].
      intros t Ht. apply negb_true_iff, String.eqb_neq.
      now apply (unknown_id_neq id0 (transactions st)).
    + unfold togglePaid. fold (toggled id0).
      rewrite map_fixed; [ apply setTransactions_same | ].
      intros t Ht. apply toggled_other.
      now apply (unknown_id_neq id0 (transactions st)).
Qed.

Lemma deleteTransaction_idempotent_unknown_id_noop_witness :
  let t := mkTransaction "k3x" "Rent" 1500 "2024-01-10" GASTO_FIXO "GASTO_FIXO"
             false (Some "2024-01-10") None None in
  let st := mkAppState [t] false "" false idle [] in
  (forall c, deleteTransaction c "zzz" st = st) /\ togglePaid "zzz" st = st.
Proof.
  intros t st.
  apply (proj2 (proj2 (deleteTransaction_idempotent_unknown_id_noop "zzz" st))).
  simpl. intros [H | []]. discriminate H.
Defined.

(* ================================================================== *)
(** * Pull *)
(* ================================================================== *)

(** The three ways a pull fails, and the one way it succeeds. *)
Lemma loadFromGoogleSheets_cases (fetch : googleSheetsService.Fetch) (url : string) :
  googleSheetsService.loadFromGoogleSheets fetch url
  = match fetch url with
    | None => inl googleSheetsService.TransportError
    | Some r =>
        if googleSheetsService.ok r then
          match googleSheetsService.json r with
          | Some data => inr data
          | None => inl googleSheetsService.SyntaxError
          end
        else inl (googleSheetsService.Error "Falha ao carregar dados")
    end.
Proof.
  unfold googleSheetsService.loadFromGoogleSheets.
  destruct (fetch url) as [ r | ]; [ | reflexivity ].
  destruct (googleSheetsService.ok r); reflexivity.
Qed.

(** C5.  [handleLoad] is atomic on the collection, in both variants.  When
    the pull fails ([fetch] rejects, the status is not a success, or the
    body is not JSON) the collection is the one before; when it succeeds
    the collection is the parsed body itself, unchecked.  The pull is
    issued only with a non-empty endpoint and after the user confirmed;
    without either nothing changes at all. *)
Theorem handleLoad_atomic (fetch : googleSheetsService.Fetch) (confirmed : bool)
    (st : AppState) :
  let issued := negb (not_string (sheetUrl st)) && confirmed in
  let after :=
    match fetch (sheetUrl st) with
    | None => transactions st
    | Some response =>
        if googleSheetsService.ok response then
          match googleSheetsService.json response with
          | Some data => if issued then data else transactions st
          | None => transactions st
          end
        else transactions st
    end in
  transactions (App.handleLoad fetch confirmed st) = after
  /\ transactions (AppPro.handleLoad fetch confirmed st) = after
  /\ (issued = false ->
      App.handleLoad fetch confirmed st = st
      /\ AppPro.handleLoad fetch confirmed st = st).
Proof.
  unfold App.handleLoad, AppPro.handleLoad.
  rewrite loadFromGoogleSheets_cases.
  destruct (not_string (sheetUrl st)), confirmed; simpl;
    destruct (fetch (sheetUrl st)) as [ r | ];
    try destruct (googleSheetsService.ok r);
    try destruct (googleSheetsService.json r);
    repeat split; intros; discriminate.
Qed.

Lemma handleLoad_atomic_witness :
  let t := mkTransaction "k3x" "Rent" 1500 "2024-01-10" GASTO_FIXO "GASTO_FIXO"
             false (Some "2024-01-10") None None in
  let st := mkAppState [t] false "https://script.example/exec" false idle [] in
  let fetch := fun _ : string => Some (googleSheetsService.mkResponse true (Some [])) in
  App.handleLoad fetch false st = st /\ AppPro.handleLoad fetch false st = st.
Proof.
  intros t st fetch.
  exact (proj2 (proj2 (handleLoad_atomic fetch false st)) eq_refl).
Defined.

(** Nothing in a pulled body is checked: two records with one id, an income
    record that is unpaid and carries a card name, a category that is not
    the type, all become the local collection as they are. *)
Example handleLoad_takes_body_as_is :
  let a := mkTransaction "x" "Salary" 5000 "2024-01-05" RECEITA "misc"
             false None (Some "Torra") None in
  let b := mkTransaction "x" "Rent" (-1500) "not a date" GASTO_FIXO ""
             true None None (Some "2/6") in
  let fetch := fun _ : string => Some (googleSheetsService.mkResponse true (Some [a; b])) in
  let st := mkAppState [] false "https://script.example/exec" false idle [] in
  transactions (App.handleLoad fetch true st) = [a; b]
  /\ transactions (AppPro.handleLoad fetch true st) = [a; b].
Proof. split; reflexivity. Qed.

(* ================================================================== *)
(** * Grouping and totals *)
(* ================================================================== *)

Lemma type_groups_Permutation (l : list Transaction) :
  Permutation
    (filter (type_is GASTO_FIXO) l
       ++ filter (type_is GASTO_CARTAO) l
       ++ filter (type_is GASTO_DIVERSO) l)
    (filter (fun t => negb (type_is RECEITA t)) l).
Proof.
  induction l as [ | t l IH ]; simpl; [ constructor | ].
  assert (H : forall ty, type_is ty t = TransactionType_eqb (type t) ty)
    by reflexivity.
  rewrite !H. destruct (type t); simpl.
  - exact IH.
  - now constructor.
  - apply Permutation_sym. eapply Permutation_trans.
    + apply perm_skip, Permutation_sym, IH.
    + apply Permutation_middle.
  - apply Permutation_sym. eapply Permutation_trans.
    + apply perm_skip, Permutation_sym, IH.
    + rewrite app_assoc. etransitivity; [ apply Permutation_middle | ].
      now rewrite <- app_assoc.
Qed.


Lemma sorted_filter_Permutation (p : Transaction -> bool) (l : list Transaction) :
  Permutation (filter p (sortedTransactions l)) (filter p l).
Proof. apply filter_Permutation, sortedTransactions_Permutation. Qed.

Lemma receitas_Permutation (l : list Transaction) :
  Permutation (rev (filter (type_is RECEITA) (sortedTransactions l)))
    (filter (type_is RECEITA) l).
Proof.
  eapply Permutation_trans;
    [ apply Permutation_sym, Permutation_rev | apply sorted_filter_Permutation ].
Qed.

Lemma sumAmounts_fold (l : list Transaction) :
  sumAmounts l = fold_left PrimFloat.add (map amount l) PrimFloat.zero.
Proof.
  unfold sumAmounts, JS.reduce. generalize PrimFloat.zero.
  induction l as [ | t l IH ]; intros a; simpl; [ reflexivity | apply IH ].
Qed.

Lemma type_is_match (t : Transaction) :
  type_is RECEITA t = match type t with RECEITA => true | _ => false end
  /\ type_is GASTO_FIXO t = match type t with GASTO_FIXO => true | _ => false end
  /\ type_is GASTO_CARTAO t = match type t with GASTO_CARTAO => true | _ => false end
  /\ type_is GASTO_DIVERSO t = match type t with GASTO_DIVERSO => true | _ => false end.
Proof. unfold type_is. destruct (type t); repeat split. Qed.

(** C3.  The totals add amounts.  Written with the binary64 addition
    itself, from 0 and from left to right: in both variants [income] is
    the sum of the amounts of the income group, which holds the RECEITA
    records of the collection and no other; [expenses] is, in the first
    variant, the sum of the amounts of all the other records in collection
    order and, in the second, fixed + cards + misc, each the sum of the
    amounts of its group, the groups holding the records of their type;
    [balance] is [income - expenses]; and the empty collection has balance
    0.  A binary64 sum depends on the order it is taken in
    ([sumAmounts_order]), so each sum is stated with its order. *)
Theorem totals_sum_identity (txs : list Transaction) :
  let total := fun l : list Transaction =>
    fold_left PrimFloat.add (map amount l) PrimFloat.zero in
  let is_income := fun t : Transaction =>
    match type t with RECEITA => true | _ => false end in
  let is_fixed := fun t : Transaction =>
    match type t with GASTO_FIXO => true | _ => false end in
  let is_card := fun t : Transaction =>
    match type t with GASTO_CARTAO => true | _ => false end in
  let is_misc := fun t : Transaction =>
    match type t with GASTO_DIVERSO => true | _ => false end in
  (income (App.totals txs) = total (App.receitas (App.grouped txs))
   /\ Permutation (App.receitas (App.grouped txs)) (filter is_income txs)
   /\ expenses (App.totals txs) = total (filter (fun t => negb (is_income t)) txs)
   /\ balance (App.totals txs)
      = PrimFloat.sub (income (App.totals txs)) (expenses (App.totals txs)))
  /\ (income (AppPro.totals txs) = total (AppPro.receitas (AppPro.grouped txs))
      /\ Permutation (AppPro.receitas (AppPro.grouped txs)) (filter is_income txs)
      /\ expenses (AppPro.totals txs)
         = PrimFloat.add
             (PrimFloat.add
                (total (AppPro.gastosFixos (AppPro.grouped txs)))
                (total (AppPro.gastosCartoes (AppPro.grouped txs))))
             (total (AppPro.gastosDiversos (AppPro.grouped txs)))
      /\ Permutation (AppPro.gastosFixos (AppPro.grouped txs)) (filter is_fixed txs)
      /\ Permutation (AppPro.gastosCartoes (AppPro.grouped txs)) (filter is_card txs)
      /\ Permutation (AppPro.gastosDiversos (AppPro.grouped txs)) (filter is_misc txs)
      /\ Permutation
           (AppPro.gastosFixos (AppPro.grouped txs)
              ++ AppPro.gastosCartoes (AppPro.grouped txs)
              ++ AppPro.gastosDiversos (AppPro.grouped txs))
           (filter (fun t => negb (is_income t)) txs)
      /\ balance (AppPro.totals txs)
         = PrimFloat.sub (income (AppPro.totals txs)) (expenses (AppPro.totals txs)))
  /\ balance (App.totals []) = PrimFloat.zero
  /\ balance (AppPro.totals []) = PrimFloat.zero.
Proof.
  intros total is_income is_fixed is_card is_misc.
  assert (Ei : filter is_income txs = filter (type_is RECEITA) txs)
    by (apply filter_ext; intros t; symmetry; apply (type_is_match t)).
  assert (Ef : filter is_fixed txs = filter (type_is GASTO_FIXO) txs)
    by (apply filter_ext; intros t; symmetry; apply (type_is_match t)).
  assert (Ec : filter is_card txs = filter (type_is GASTO_CARTAO) txs)
    by (apply filter_ext; intros t; symmetry; apply (type_is_match t)).
  assert (Em : filter is_misc txs = filter (type_is GASTO_DIVERSO) txs)
    by (apply filter_ext; intros t; symmetry; apply (type_is_match t)).
  assert (En : filter (fun t => negb (is_income t)) txs
               = filter (fun t => negb (type_is RECEITA t)) txs).
  { apply filter_ext. intros t. f_equal. }
  rewrite Ei, Ef, Ec, Em, En. subst total. cbv beta. rewrite <- !sumAmounts_fold.
  split; [ | split; [ | split; reflexivity ] ].
  - repeat split. apply receitas_Permutation.
  - split; [ reflexivity | ]. split; [ apply receitas_Permutation | ].
    split; [ reflexivity | ].
    split; [ apply sorted_filter_Permutation | ].
    split; [ apply sorted_filter_Permutation | ].
    split; [ apply sorted_filter_Permutation | ].
    split; [ | reflexivity ].
    eapply Permutation_trans; [ apply type_groups_Permutation | ].
    apply sorted_filter_Permutation.
Qed.

(** The scenario of the specification: a salary of 5000 and an unpaid rent
    of 1500, entered through the form. *)
Example totals_salary_rent :
  let salary := TransactionForm.mkState "Salary" "5000" "2024-01-05" RECEITA "" "" in
  let rent := TransactionForm.mkState "Rent" "1500" "2024-01-10" GASTO_FIXO "" "" in
  let st := add "0.k3xq9d2ab71" rent (add "0.p0q8r7s6t5u" salary (mkAppState [] true "" false idle [])) in
  map id (transactions st) = ["k3xq9d2ab"; "p0q8r7s6t"]
  /\ App.totals (transactions st) = mkTotals 5000 1500 3500 1500 0
  /\ AppPro.totals (transactions st) = mkTotals 5000 1500 3500 1500 0
  /\ fixedPending (App.totals (transactions (togglePaid "k3xq9d2ab" st))) = 0%float.
Proof. vm_compute. repeat split. Qed.

(** The order a binary64 sum is taken in shows in its value. *)
Example sumAmounts_order :
  let r x := mkTransaction "" "" x "" RECEITA "" true None None None in
  let a := JS.parseFloat "0.1" in
  let b := JS.parseFloat "0.2" in
  let c := JS.parseFloat "0.3" in
  PrimFloat.eqb (sumAmounts [r a; r b; r c]) (sumAmounts [r c; r b; r a]) = false.
Proof. vm_compute. reflexivity. Qed.

Lemma cardName_is_true (name : string) (t : Transaction) :
  cardName_is name t = true <-> cardName t = Some name.
Proof.
  unfold cardName_is. destruct (cardName t) as [ c | ].
  - rewrite String.eqb_eq. split; congruence.
  - split; discriminate.
Qed.


Lemma buckets_of_sorted (txs : list Transaction) :
  buckets_ok txs
    [ ("BaneseCard", filter (cardName_is "BaneseCard") (sortedTransactions txs));
      ("Nubank Davi", filter (cardName_is "Nubank Davi") (sortedTransactions txs));
      ("Torra", filter (cardName_is "Torra") (sortedTransactions txs));
      ("Iti Tuy", filter (cardName_is "Iti Tuy") (sortedTransactions txs)) ].
Proof.
  split; [ reflexivity | ].
  intros name items H. simpl in H.
  repeat (destruct H as [ H | H ];
          [ injection H as <- <-; apply sorted_filter_Permutation | ]).
  destruct H.
Qed.



Lemma bucket_members (txs : list Transaction) (buckets : list (string * list Transaction))
    (name : string) (items : list Transaction) (t : Transaction) :
  buckets_ok txs buckets -> In (name, items) buckets ->
  (In t items <-> In t txs /\ cardName t = Some name).
Proof.
  intros [_ Hb] Hin. specialize (Hb name items Hin).
  rewrite <- cardName_is_true, <- filter_In.
  split; apply Permutation_in; [ | apply Permutation_sym ]; exact Hb.
Qed.




(* ================================================================== *)
(** * Paying a fixed expense *)
(* ================================================================== *)











(* ================================================================== *)
(** * Rounding never gives NaN; number-field values parse *)
(* ================================================================== *)

Lemma shr_1_nonneg (r : SpecFloat.shr_record) :
  0 <= SpecFloat.shr_m r -> 0 <= SpecFloat.shr_m (SpecFloat.shr_1 r).
Proof.
  destruct r as [m r s]. destruct m as [ | [ p | p | ] | p ]; simpl; lia.
Qed.

Lemma iter_shr_1_nonneg (p : positive) (r : SpecFloat.shr_record) :
  0 <= SpecFloat.shr_m r ->
  0 <= SpecFloat.shr_m (SpecFloat.iter_pos SpecFloat.shr_1 p r).
Proof.
  revert r. induction p as [ p IH | p IH | ]; intros r H; simpl.
  - apply IH, IH, shr_1_nonneg, H.
  - apply IH, IH, H.
  - apply shr_1_nonneg, H.
Qed.

Lemma shr_fexp_nonneg (m e : Z) (l : SpecFloat.location) :
  0 <= m -> 0 <= SpecFloat.shr_m (fst (SpecFloat.shr_fexp prec emax m e l)).
Proof.
  intros H. unfold SpecFloat.shr_fexp, SpecFloat.shr.
  assert (R : 0 <= SpecFloat.shr_m (SpecFloat.shr_record_of_loc m l))
    by (destruct l as [ | [ | | ] ]; exact H).
  destruct (_ - e); simpl; [ exact R | | exact R ].
  apply iter_shr_1_nonneg, R.
Qed.

Lemma round_nearest_even_nonneg (m : Z) (l : SpecFloat.location) :
  0 <= m -> 0 <= SpecFloat.round_nearest_even m l.
Proof.
  intros H. destruct l as [ | [ | | ] ]; simpl; try lia.
  destruct (Z.even m); lia.
Qed.

Lemma binary_round_aux_not_nan (sx : bool) (mx ex : Z) (lx : SpecFloat.location) :
  0 <= mx -> SpecFloat.binary_round_aux prec emax sx mx ex lx <> S754_nan.
Proof.
  intros H. unfold SpecFloat.binary_round_aux.
  pose proof (shr_fexp_nonneg mx ex lx H) as H1.
  destruct (SpecFloat.shr_fexp prec emax mx ex lx) as [mrs' e']. simpl in H1.
  pose proof (shr_fexp_nonneg _ e' SpecFloat.loc_Exact
                (round_nearest_even_nonneg _ (SpecFloat.loc_of_shr_record mrs') H1)) as H2.
  destruct (SpecFloat.shr_fexp prec emax _ e' SpecFloat.loc_Exact) as [mrs'' e''].
  simpl in H2. destruct (SpecFloat.shr_m mrs''); [ discriminate | | lia ].
  destruct (e'' <=? emax - prec); discriminate.
Qed.

Lemma binary_round_not_nan (sx : bool) (mx : positive) (ex : Z) :
  SpecFloat.binary_round prec emax sx mx ex <> S754_nan.
Proof.
  unfold SpecFloat.binary_round. destruct (SpecFloat.shl_align _ _ _) as [mz ez].
  apply binary_round_aux_not_nan. lia.
Qed.

Lemma binary_normalize_not_nan (m e : Z) (szero : bool) :
  SpecFloat.binary_normalize prec emax m e szero <> S754_nan.
Proof.
  destruct m; simpl; [ discriminate | | ]; apply binary_round_not_nan.
Qed.

Lemma isNaN_Prim2SF (f : JS.Number) :
  Prim2SF f <> S754_nan -> JS.isNaN f = false.
Proof.
  intros H. unfold JS.isNaN, PrimFloat.is_nan. rewrite FloatAxioms.eqb_spec.
  unfold SpecFloat.SFeqb.
  destruct (Prim2SF f) as [ s | s | | s m e ]; simpl.
  - reflexivity.
  - destruct s; reflexivity.
  - now elim H.
  - rewrite Z.compare_refl. change (Pos.compare_cont Eq m m) with (Pos.compare m m).
    rewrite Pos.compare_refl. destruct s; reflexivity.
Qed.

Lemma Prim2SF_SF2Prim_not_nan (x : spec_float) :
  x <> S754_nan -> Prim2SF (SF2Prim x) <> S754_nan.
Proof.
  intros H. destruct x as [ [ | ] | [ | ] | | s m e ];
    try (vm_compute; discriminate); [ now elim H | ].
  unfold SF2Prim.
  assert (L : Prim2SF (Z.ldexp (of_uint63 (Uint63Axioms.of_Z (Zpos m))) e) <> S754_nan).
  { rewrite Z_ldexp_spec, of_uint63_spec.
    pose proof (binary_normalize_not_nan
                  (Uint63Axioms.to_Z (Uint63Axioms.of_Z (Z.pos m))) 0 false) as N.
    destruct (SpecFloat.binary_normalize prec emax _ 0 false); simpl;
      try discriminate; [ exact N | apply binary_round_not_nan ]. }
  destruct s; [ | exact L ].
  rewrite opp_spec. destruct (Prim2SF _); simpl; try discriminate. exact L.
Qed.

Lemma ofDecimal_not_nan (m e : Z) : Prim2SF (JS.ofDecimal m e) <> S754_nan.
Proof.
  unfold JS.ofDecimal. destruct (m =? 0); [ vm_compute; discriminate | ].
  destruct (0 <=? e); apply Prim2SF_SF2Prim_not_nan, binary_normalize_not_nan.
Qed.

Lemma takeDigits_count_rest (s : string) (a a' n : Z) :
  snd (fst (JS.takeDigits a n s)) = snd (fst (JS.takeDigits a' n s))
  /\ snd (JS.takeDigits a n s) = snd (JS.takeDigits a' n s).
Proof.
  revert a a' n. induction s as [ | c s IH ]; intros a a' n; simpl; [ now split | ].
  destruct (JS.digitValue c); [ apply IH | now split ].
Qed.

Lemma digit_not_space (c : ascii) (d : Z) :
  JS.digitValue c = Some d -> JS.isWhiteSpace c = false.
Proof.
  unfold JS.digitValue, JS.isWhiteSpace.
  destruct (_ && _) eqn:E; [ | discriminate ]. intros _.
  apply andb_true_iff in E. destruct E as [E1 E2].
  apply Z.leb_le in E1.
  apply orb_false_iff. split; [ apply andb_false_iff; right | ].
  - apply Z.leb_gt. lia.
  - apply Z.eqb_neq. lia.
Qed.

(** A well-formed mantissa has a value. *)
Lemma validUnsigned_value (body : string) :
  HTML.validUnsigned body = true ->
  JS.strUnsignedDecimalLiteral body <> JS.MVNone.
Proof.
  unfold HTML.validUnsigned, JS.strUnsignedDecimalLiteral.
  destruct (String.prefix "Infinity" body); [ discriminate | ].
  destruct (JS.takeDigits 0 0 body) as [[i ni] r1].
  destruct r1 as [ | c r2 ].
  - intros H. rewrite Z.eqb_sym. 
    destruct (Z.ltb_spec 0 ni); [ | discriminate ].
    destruct (Z.eqb_spec 0 ni); [ lia | discriminate ].
  - destruct (Ascii.eqb c ".").
    + destruct (takeDigits_count_rest r2 i 0 0) as [Ec _].
      destruct (JS.takeDigits i 0 r2) as [[m nf] r3].
      destruct (JS.takeDigits 0 0 r2) as [[m' nf'] r3']. simpl in Ec. subst nf'.
      intros H. apply andb_true_iff in H. destruct H as [H _].
      apply Z.ltb_lt in H.
      destruct (Z.eqb_spec nf 0); [ lia | ].
      rewrite andb_false_r. discriminate.
    + intros H. apply andb_true_iff in H. destruct H as [H _].
      apply Z.ltb_lt in H.
      destruct (Z.eqb_spec ni 0); [ lia | discriminate ].
Qed.

Lemma validUnsigned_first (body : string) :
  HTML.validUnsigned body = true ->
  exists c r, body = String c r
    /\ ((exists d, JS.digitValue c = Some d) \/ c = "."%char).
Proof.
  unfold HTML.validUnsigned. destruct body as [ | c r ]; simpl; [ discriminate | ].
  intros H. exists c, r. split; [ reflexivity | ].
  destruct (JS.digitValue c) as [ d | ]; [ left; now exists d | right ].
  destruct (Ascii.eqb_spec c "."); [ assumption | discriminate ].
Qed.

Lemma parseFloat_unsigned (body : string) :
  HTML.validUnsigned body = true ->
  JS.parseFloat body
  = match JS.strUnsignedDecimalLiteral body with
    | JS.MVNone => PrimFloat.nan
    | JS.MVInfinity => PrimFloat.infinity
    | JS.MVDecimal m e => JS.ofDecimal m e
    end.
Proof.
  intros H. destruct (validUnsigned_first body H) as (c & r & -> & Hc).
  unfold JS.parseFloat.
  assert (W : JS.isWhiteSpace c = false).
  { destruct Hc as [ [d Hd] | -> ]; [ now apply (digit_not_space c d) | reflexivity ]. }
  simpl JS.trimStart. rewrite W.
  assert (S : Ascii.eqb c "-" = false /\ Ascii.eqb c "+" = false).
  { destruct Hc as [ [d Hd] | -> ]; [ | split; reflexivity ].
    split; apply Ascii.eqb_neq; intros ->; discriminate Hd. }
  destruct S as [-> ->]. reflexivity.
Qed.

Lemma parseFloat_valid (s : string) :
  HTML.validFloatingPointNumber s = true -> JS.isNaN (JS.parseFloat s) = false.
Proof.
  destruct s as [ | c r ]; [ discriminate | ]. unfold HTML.validFloatingPointNumber.
  destruct (Ascii.eqb_spec c "-") as [ -> | Hc ]; intros H.
  - unfold JS.parseFloat. simpl JS.trimStart. cbv iota beta.
    change (Ascii.eqb "-" "-") with true. cbv iota.
    pose proof (validUnsigned_value r H) as V.
    destruct (JS.strUnsignedDecimalLiteral r) as [ | | m e ];
      [ now elim V | reflexivity | ].
    apply isNaN_Prim2SF. rewrite opp_spec.
    pose proof (ofDecimal_not_nan m e) as N.
    destruct (Prim2SF (JS.ofDecimal m e)); simpl; try discriminate. exact N.
  - rewrite (parseFloat_unsigned _ H).
    pose proof (validUnsigned_value _ H) as V.
    destruct (JS.strUnsignedDecimalLiteral (String c r)) as [ | | m e ];
      [ now elim V | reflexivity | ].
    apply isNaN_Prim2SF, ofDecimal_not_nan.
Qed.

(* ================================================================== *)
(** * Adding a record *)
(* ================================================================== *)

Lemma add_unfold (random36 : string) (f : TransactionForm.State) (st : AppState) :
  add random36 f st
  = if not_string (TransactionForm.description f)
       || not_string (TransactionForm.amount f)
       || not_string (TransactionForm.date f)
    then st
    else
      setIsFormOpen false
        (setTransactions (created (JS.substr random36 2 9) f :: transactions st) st).
Proof. reflexivity. Qed.

Lemma parseFloat_empty : JS.parseFloat "" = PrimFloat.nan.
Proof. reflexivity. Qed.

(** C1.  The amount text of the form is written by the number field only,
    and the value of a number field is the empty string or a valid
    floating-point number ([HTML.isNumberInputValue]).  On every such form
    state: when the description is empty, the amount text is empty, the
    date is empty or the amount text does not parse as a number, [add]
    returns the state it was given, so no record is created and nothing is
    raised; otherwise it puts exactly one record in front of the
    collection and keeps the others, and the amount of that record is the
    number parsed.  [handleSubmit] tests the three texts for emptiness
    only; a value of the number field that does not parse is the empty
    one ([parseFloat_valid]), which is how the fourth case is covered. *)
Theorem add_rejects_missing_or_unparsable (random36 : string)
    (f : TransactionForm.State) (st : AppState) :
  HTML.isNumberInputValue (TransactionForm.amount f) = true ->
  (TransactionForm.description f = ""
   \/ TransactionForm.amount f = ""
   \/ TransactionForm.date f = ""
   \/ JS.isNaN (JS.parseFloat (TransactionForm.amount f)) = true ->
   add random36 f st = st)
  /\ (~ (TransactionForm.description f = ""
         \/ TransactionForm.amount f = ""
         \/ TransactionForm.date f = ""
         \/ JS.isNaN (JS.parseFloat (TransactionForm.amount f)) = true) ->
      exists t,
        transactions (add random36 f st) = t :: transactions st
        /\ amount t = JS.parseFloat (TransactionForm.amount f)
        /\ JS.isNaN (amount t) = false).
Proof.
  intros Hv. rewrite add_unfold. split.
  - intros [ H | [ H | [ H | Hn ] ] ].
    + apply not_string_true in H. now rewrite H.
    + apply not_string_true in H. rewrite H, orb_true_r. reflexivity.
    + apply not_string_true in H. rewrite H, orb_true_r. reflexivity.
    + unfold HTML.isNumberInputValue in Hv.
      destruct (not_string (TransactionForm.amount f));
        [ now rewrite orb_true_r | ].
      simpl in Hv. rewrite (parseFloat_valid _ Hv) in Hn. discriminate Hn.
  - intros N.
    assert (Hd : not_string (TransactionForm.description f) = false)
      by (apply not_string_false; intros E; apply N; now left).
    assert (Ha : not_string (TransactionForm.amount f) = false)
      by (apply not_string_false; intros E; apply N; right; now left).
    assert (Ht : not_string (TransactionForm.date f) = false)
      by (apply not_string_false; intros E; apply N; right; right; now left).
    rewrite Hd, Ha, Ht. simpl.
    eexists. split; [ reflexivity | ]. split; [ reflexivity | ].
    simpl. destruct (JS.isNaN (JS.parseFloat (TransactionForm.amount f))) eqn:E;
      [ | reflexivity ].
    exfalso. apply N. right; right; right. reflexivity.
Qed.

Lemma add_rejects_missing_or_unparsable_witness :
  let st := mkAppState [] true "" false idle [] in
  add "0.k3xq9d2ab71" (TransactionForm.mkState "Rent" "" "2024-01-10" GASTO_FIXO "" "") st
  = st
  /\ exists t,
       transactions
         (add "0.k3xq9d2ab71"
            (TransactionForm.mkState "Rent" "1500" "2024-01-10" GASTO_FIXO "" "") st)
       = t :: transactions st
       /\ amount t = JS.parseFloat "1500"
       /\ JS.isNaN (amount t) = false.
Proof.
  intros st. split.
  - apply (proj1 (add_rejects_missing_or_unparsable "0.k3xq9d2ab71"
                    (TransactionForm.mkState "Rent" "" "2024-01-10" GASTO_FIXO "" "") st
                    eq_refl)).
    right. left. reflexivity.
  - apply (proj2 (add_rejects_missing_or_unparsable "0.k3xq9d2ab71"
                    (TransactionForm.mkState "Rent" "1500" "2024-01-10" GASTO_FIXO "" "") st
                    eq_refl)).
    intros [ H | [ H | [ H | H ] ] ]; vm_compute in H; discriminate H.
Defined.

(** C2 (as amended).  On a valid input [add] puts one record in front of
    the collection.  Its id is the nine characters that follow ["0."] in
    [Math.random().toString(36)], fewer when the string is shorter, and is
    not compared with the ids in use; its category is its type, it is
    paid exactly when it is income, it has a card name and installments
    exactly when it is a card expense, and its description, amount, date
    and type are the input's.  Lookup by its id finds it (it is the first
    record), and its id is fresh whenever the draw is not an id in use. *)
Theorem add_creates_record (random36 : string) (f : TransactionForm.State)
    (st : AppState) :
  TransactionForm.description f <> "" ->
  JS.isNaN (JS.parseFloat (TransactionForm.amount f)) = false ->
  TransactionForm.date f <> "" ->
  exists t,
    transactions (add random36 f st) = t :: transactions st
    /\ id t = JS.substr random36 2 9
    /\ category t = TransactionType_string (type t)
    /\ (isPaid t = true <-> type t = RECEITA)
    /\ (type t = GASTO_CARTAO ->
        cardName t = Some (TransactionForm.cardName f)
        /\ installments t = Some (TransactionForm.installments f))
    /\ (type t <> GASTO_CARTAO -> cardName t = None /\ installments t = None)
    /\ lookup (id t) (transactions (add random36 f st)) = Some t
    /\ description t = TransactionForm.description f
    /\ amount t = JS.parseFloat (TransactionForm.amount f)
    /\ date t = TransactionForm.date f
    /\ type t = TransactionForm.type f
    /\ (~ In (id t) (map id (transactions st)) ->
        forall u, In u (transactions (add random36 f st)) -> id u = id t -> u = t).
Proof.
  intros Hd Hn Ht.
  assert (Ha : TransactionForm.amount f <> "").
  { intros E. rewrite E, parseFloat_empty in Hn. discriminate Hn. }
  rewrite add_unfold.
  apply not_string_false in Hd, Ha, Ht. rewrite Hd, Ha, Ht. simpl.
  exists (created (JS.substr random36 2 9) f).
  split; [ reflexivity | ]. split; [ reflexivity | ]. split; [ reflexivity | ].
  split; [ apply TransactionType_eqb_eq | ].
  split; [ simpl; intros E; rewrite E; split; reflexivity | ].
  split.
  { simpl. intros E.
    destruct (TransactionType_eqb (TransactionForm.type f) GASTO_CARTAO) eqn:B;
      [ apply TransactionType_eqb_eq in B; contradiction | split; reflexivity ]. }
  split; [ unfold lookup; simpl; now rewrite String.eqb_refl | ].
  repeat (split; [ reflexivity | ]).
  simpl. intros Hfresh u [ <- | Hu ] E; [ reflexivity | ].
  exfalso. apply Hfresh. rewrite <- E. now apply in_map.
Qed.

Lemma add_creates_record_witness :
  let f := TransactionForm.mkState "Mercado" "89.90" "2024-01-12" GASTO_CARTAO
             "Nubank Davi" "1/3" in
  let st := mkAppState [] true "" false idle [] in
  exists t,
    transactions (add "0.k3xq9d2ab71" f st) = t :: transactions st
    /\ id t = JS.substr "0.k3xq9d2ab71" 2 9
    /\ category t = TransactionType_string (type t)
    /\ (isPaid t = true <-> type t = RECEITA)
    /\ (type t = GASTO_CARTAO ->
        cardName t = Some (TransactionForm.cardName f)
        /\ installments t = Some (TransactionForm.installments f))
    /\ (type t <> GASTO_CARTAO -> cardName t = None /\ installments t = None)
    /\ lookup (id t) (transactions (add "0.k3xq9d2ab71" f st)) = Some t
    /\ description t = TransactionForm.description f
    /\ amount t = JS.parseFloat (TransactionForm.amount f)
    /\ date t = TransactionForm.date f
    /\ type t = TransactionForm.type f
    /\ (~ In (id t) (map id (transactions st)) ->
        forall u, In u (transactions (add "0.k3xq9d2ab71" f st)) -> id u = id t -> u = t).
Proof.
  intros f st.
  apply (add_creates_record "0.k3xq9d2ab71" f st);
    [ simpl; discriminate | vm_compute; reflexivity | simpl; discriminate ].
Defined.

(** C2, the claim as written fails on the id: [Math.random()] can return a
    value it returned before.  0.5 is ["0.i"] in base 36; drawn twice, the
    second record gets the id of the first. *)
Lemma add_id_not_fresh_counterexample :
  let salary := TransactionForm.mkState "Salary" "5000" "2024-01-05" RECEITA "" "" in
  let rent := TransactionForm.mkState "Rent" "1500" "2024-01-10" GASTO_FIXO "" "" in
  let st1 := add "0.i" salary (mkAppState [] true "" false idle []) in
  let st2 := add "0.i" rent st1 in
  map id (transactions st1) = ["i"]
  /\ map id (transactions st2) = ["i"; "i"]
  /\ In (JS.substr "0.i" 2 9) (map id (transactions st1))
  /\ JS.isNaN (JS.parseFloat (TransactionForm.amount rent)) = false.
Proof. vm_compute. repeat split. left. reflexivity. Qed.

(* ================================================================== *)
(** * Overdue records *)
(* ================================================================== *)

Lemma setHours0_localDay (tz ms : Z) :
  JS.setHours0 tz (Some ms) = Some (localDay tz ms * JS.msPerDay - tz).
Proof. reflexivity. Qed.

Lemma isOverdue_paid (clock : Clock) (dateStr : string) :
  isOverdue clock dateStr true = false.
Proof. reflexivity. Qed.

(** What the code compares: the local day of the parsed instant and the
    local day of the clock. *)
Lemma isOverdue_unpaid (clock : Clock) (dateStr : string) (due : Z) :
  JS.Date_parse dateStr = Some due ->
  isOverdue clock dateStr false
  = (localDay (tz clock) due <? localDay (tz clock) (now clock)).
Proof.
  intros H. unfold isOverdue. rewrite H, !setHours0_localDay. simpl.
  unfold JS.msPerDay.
  destruct (Z.ltb_spec (localDay (tz clock) due) (localDay (tz clock) (now clock)));
    [ apply Z.ltb_lt | apply Z.ltb_ge ]; lia.
Qed.

(** A date-only string is parsed as midnight UTC of that date. *)
Lemma Date_parse_midnight_UTC (dateStr : string) (ms : Z) :
  JS.Date_parse dateStr = Some ms -> exists day, ms = day * JS.msPerDay.
Proof.
  unfold JS.Date_parse. destruct (list_ascii_of_string dateStr) as [ | y1 l ];
    [ discriminate | ].
  do 9 (destruct l as [ | ? l ]; [ discriminate | ]).
  destruct l; [ | discriminate ].
  destruct (_ && _); [ | discriminate ].
  destruct (JS.digits _) as [ y | ]; [ | discriminate ].
  destruct (JS.digits _) as [ m | ]; [ | discriminate ].
  destruct (JS.digits _) as [ d | ]; [ | discriminate ].
  destruct (_ && _); [ | discriminate ].
  intros [= <-]. eexists. reflexivity.
Qed.

(** East of Greenwich (and on it) the parsed instant is in the local day
    the string names: overdue means dated before today. *)
Lemma isOverdue_east_of_UTC (clock : Clock) (dateStr : string) (day : Z) :
  0 <= tz clock < JS.msPerDay ->
  JS.Date_parse dateStr = Some (day * JS.msPerDay) ->
  isOverdue clock dateStr false = (day <? localDay (tz clock) (now clock)).
Proof.
  intros Htz H. rewrite (isOverdue_unpaid clock dateStr _ H). f_equal.
  unfold localDay. rewrite Z.div_add_l by discriminate.
  rewrite Z.div_small by exact Htz. lia.
Qed.

(** West of Greenwich midnight UTC is in the evening of the local day
    before: overdue means dated today or before. *)
Lemma isOverdue_west_of_UTC (clock : Clock) (dateStr : string) (day : Z) :
  - JS.msPerDay <= tz clock < 0 ->
  JS.Date_parse dateStr = Some (day * JS.msPerDay) ->
  isOverdue clock dateStr false = (day <=? localDay (tz clock) (now clock)).
Proof.
  intros Htz H. rewrite (isOverdue_unpaid clock dateStr _ H).
  unfold localDay at 1. rewrite Z.div_add_l by discriminate.
  assert (E : tz clock / JS.msPerDay = -1).
  { unfold JS.msPerDay in *. symmetry.
    apply (Z.div_unique _ _ _ (tz clock + 86400000)); lia. }
  rewrite E.
  destruct (Z.leb_spec day (localDay (tz clock) (now clock)));
    [ apply Z.ltb_lt | apply Z.ltb_ge ]; lia.
Qed.

(** C4, where the code departs from the claim.  In a time zone three hours
    behind UTC, at noon local time on 2024-01-10, an unpaid record dated
    2024-01-10 is reported overdue: its date is parsed as 2024-01-10T00:00Z,
    which is 21:00 on the 9th local time, and [setHours] takes it to the
    start of the 9th.  (A paid record is never overdue, and east of
    Greenwich the claim holds: [isOverdue_paid], [isOverdue_east_of_UTC].) *)
Theorem isOverdue_due_today_west_of_UTC :
  let clock := mkClock (- 10800000) 1704898800000 in
  localDay (tz clock) (now clock) = JS.makeDay 2024 1 10
  /\ JS.Date_parse "2024-01-10" = Some (JS.makeDay 2024 1 10 * JS.msPerDay)
  /\ JS.setHours0 (tz clock) (JS.Date_parse "2024-01-10")
     = Some (JS.makeDay 2024 1 9 * JS.msPerDay - tz clock)
  /\ isOverdue clock "2024-01-10" false = true.
Proof. vm_compute. repeat split. Qed.

(* ================================================================== *)
(** * The sorted view *)
(* ================================================================== *)

Lemma insert_dated (k : Z) (x : Transaction) (l : list Transaction) :
  filter (dated k)
    (JS.insert
       (fun a b => JS.timeDiff (JS.Date_parse (date a)) (JS.Date_parse (date b)))
       x l)
  = filter (dated k) (x :: l).
Proof.
  induction l as [ | y l IH ]; [ reflexivity | ].
  simpl JS.insert.
  destruct (JS.positive_result _) eqn:P; [ | reflexivity ].
  simpl. simpl in IH. rewrite IH.
  destruct (dated k x) eqn:Dx; [ | reflexivity ].
  destruct (dated k y) eqn:Dy; [ | reflexivity ].
  exfalso. unfold dated in Dx, Dy.
  destruct (JS.Date_parse (date x)) as [ tx | ]; [ | discriminate ].
  destruct (JS.Date_parse (date y)) as [ ty | ]; [ | discriminate ].
  simpl in P. apply Z.eqb_eq in Dx, Dy. apply Z.ltb_lt in P. lia.
Qed.

(** X1.  Sorting by date loses and duplicates nothing; and when every date
    in the collection is a valid date it is stable: the records of any one
    date come out in the order they are in the collection. *)
Theorem sortedTransactions_stable (l : list Transaction) (k : Z) :
  Permutation (sortedTransactions l) l
  /\ (Forall (fun t => JS.Date_parse (date t) <> None) l ->
      filter (dated k) (sortedTransactions l) = filter (dated k) l).
Proof.
  split; [ apply sort_Permutation | ]. intros _.
  induction l as [ | x l IH ]; [ reflexivity | ].
  change (sortedTransactions (x :: l))
    with (JS.insert
            (fun a b => JS.timeDiff (JS.Date_parse (date a)) (JS.Date_parse (date b)))
            x (sortedTransactions l)).
  rewrite insert_dated. simpl. rewrite IH. reflexivity.
Qed.

Lemma sortedTransactions_stable_witness :
  let a := mkTransaction "a" "Rent" 1500 "2024-03-01" GASTO_FIXO "GASTO_FIXO" false
             (Some "2024-03-01") None None in
  let b := mkTransaction "b" "Salary" 5000 "2024-01-15" RECEITA "RECEITA" true
             (Some "2024-01-15") None None in
  let c := mkTransaction "c" "Bonus" 300 "2024-03-01" RECEITA "RECEITA" true
             (Some "2024-03-01") None None in
  map id (sortedTransactions [a; b; c]) = ["b"; "a"; "c"]
  /\ filter (dated (JS.makeDay 2024 3 1 * JS.msPerDay)) (sortedTransactions [a; b; c])
     = filter (dated (JS.makeDay 2024 3 1 * JS.msPerDay)) [a; b; c].
Proof.
  intros a b c. split; [ reflexivity | ].
  apply (proj2 (sortedTransactions_stable [a; b; c] (JS.makeDay 2024 3 1 * JS.msPerDay))).
  repeat constructor; vm_compute; discriminate.
Defined.

Lemma witness_valid_dates :
  Forall (fun t => JS.Date_parse (date t) <> None)
    [ mkTransaction "a" "Rent" 1500 "2024-03-01" GASTO_FIXO "GASTO_FIXO" false
        (Some "2024-03-01") None None;
      mkTransaction "b" "Salary" 5000 "2024-01-15" RECEITA "RECEITA" true
        (Some "2024-01-15") None None;
      mkTransaction "c" "Bonus" 300 "2024-02-01" RECEITA "RECEITA" true
        (Some "2024-02-01") None None ].
Proof. repeat constructor; vm_compute; discriminate. Qed.

Section StronglySortedFacts.
Context {A : Type}.

Lemma StronglySorted_filter (R : A -> A -> Prop) (p : A -> bool) (l : list A) :
  StronglySorted R l -> StronglySorted R (filter p l).
Proof.
  induction 1 as [ | x l _ IH Hx ]; simpl; [ constructor | ].
  destruct (p x); [ | exact IH ].
  constructor; [ exact IH | ].
  apply Forall_forall. intros y Hy. apply filter_In in Hy.
  revert y Hy. rewrite Forall_forall in Hx. intros y [Hy _]. now apply Hx.
Qed.

Lemma StronglySorted_app_one (R : A -> A -> Prop) (l : list A) (x : A) :
  StronglySorted R l -> Forall (fun y => R y x) l -> StronglySorted R (l ++ [x]).
Proof.
  induction 1 as [ | y l _ IH Hy ]; intros Hl; simpl.
  - repeat constructor.
  - inversion Hl as [ | ? ? Hyx Hl' ]; subst.
    constructor; [ now apply IH | ].
    apply Forall_app. split; [ exact Hy | now constructor ].
Qed.

Lemma StronglySorted_rev (R : A -> A -> Prop) (l : list A) :
  StronglySorted R l -> StronglySorted (fun a b => R b a) (rev l).
Proof.
  induction 1 as [ | x l _ IH Hx ]; simpl; [ constructor | ].
  apply StronglySorted_app_one; [ exact IH | ].
  apply Forall_forall. intros y Hy. apply in_rev in Hy.
  rewrite Forall_forall in Hx. now apply Hx.
Qed.
End StronglySortedFacts.

Lemma ascending_trans (a b c : Transaction) :
  ascending a b -> ascending b c -> ascending a c.
Proof.
  unfold ascending.
  destruct (JS.Date_parse (date a)), (JS.Date_parse (date b)),
    (JS.Date_parse (date c)); try tauto. lia.
Qed.

Lemma sortedTransactions_strongly (l : list Transaction) :
  Forall (fun t => JS.Date_parse (date t) <> None) l ->
  StronglySorted ascending (sortedTransactions l).
Proof.
  intros H. apply Sorted_StronglySorted.
  - intros a b c. apply ascending_trans.
  - now apply sortedTransactions_ascending.
Qed.

(** X2.  When every date of the collection is a valid date, the sorted view
    is in ascending order of date, the expense groups of both variants are
    in ascending order, and the income group is in descending order: each
    record is dated no later (no earlier, for income) than every record
    after it. *)
Theorem views_in_date_order (txs : list Transaction) :
  Forall (fun t => JS.Date_parse (date t) <> None) txs ->
  StronglySorted ascending (sortedTransactions txs)
  /\ StronglySorted descending (App.receitas (App.grouped txs))
  /\ StronglySorted ascending (App.gastosFixos (App.grouped txs))
  /\ StronglySorted ascending (App.gastosCartoes (App.grouped txs))
  /\ StronglySorted descending (AppPro.receitas (AppPro.grouped txs))
  /\ StronglySorted ascending (AppPro.gastosFixos (AppPro.grouped txs))
  /\ StronglySorted ascending (AppPro.gastosCartoes (AppPro.grouped txs))
  /\ StronglySorted ascending (AppPro.gastosDiversos (AppPro.grouped txs))
  /\ Forall (fun b => StronglySorted ascending (snd b)) (App.cartoes (App.grouped txs))
  /\ Forall (fun b => StronglySorted ascending (snd b))
       (AppPro.cartoesDetalhe (AppPro.grouped txs)).
Proof.
  intros H. pose proof (sortedTransactions_strongly txs H) as S.
  assert (F : forall p, StronglySorted ascending (filter p (sortedTransactions txs)))
    by (intros p; now apply StronglySorted_filter).
  assert (D : StronglySorted descending
                (rev (filter (type_is RECEITA) (sortedTransactions txs))))
    by (apply (StronglySorted_rev ascending), F).
  repeat split; try exact S; try exact D; try apply F;
    repeat (constructor; [ apply F | ]); constructor.
Qed.

Lemma views_in_date_order_witness :
  let txs :=
    [ mkTransaction "a" "Rent" 1500 "2024-03-01" GASTO_FIXO "GASTO_FIXO" false
        (Some "2024-03-01") None None;
      mkTransaction "b" "Salary" 5000 "2024-01-15" RECEITA "RECEITA" true
        (Some "2024-01-15") None None;
      mkTransaction "c" "Bonus" 300 "2024-02-01" RECEITA "RECEITA" true
        (Some "2024-02-01") None None ] in
  StronglySorted ascending (sortedTransactions txs)
  /\ StronglySorted descending (App.receitas (App.grouped txs)).
Proof.
  intros txs.
  pose proof (views_in_date_order txs witness_valid_dates) as H.
  exact (conj (proj1 H) (proj1 (proj2 H))).
Defined.

(** Inserting into a list in date order, seen through a filter. *)
Lemma filter_insert_sorted (p : Transaction -> bool) (x : Transaction)
    (l : list Transaction) :
  JS.Date_parse (date x) <> None ->
  StronglySorted ascending l ->
  filter p
    (JS.insert
       (fun a b => JS.timeDiff (JS.Date_parse (date a)) (JS.Date_parse (date b)))
       x l)
  = if p x
    then JS.insert
           (fun a b => JS.timeDiff (JS.Date_parse (date a)) (JS.Date_parse (date b)))
           x (filter p l)
    else filter p l.
Proof.
  intros Hx. induction 1 as [ | y l Hs IH Hy ]; simpl.
  - destruct (p x); reflexivity.
  - destruct (JS.positive_result _) eqn:P; simpl.
    + rewrite IH. destruct (p y) eqn:Py, (p x); simpl; try reflexivity.
      now rewrite P.
    + destruct (p x) eqn:Px, (p y) eqn:Py; simpl; try reflexivity.
      * now rewrite P.
      * (* x stays in front of the first kept record, which is no earlier than y *)
        destruct (filter p l) as [ | z r ] eqn:E; [ reflexivity | ].
        assert (Hz : In z l).
        { assert (Hz : In z (filter p l)) by (rewrite E; now left).
          now apply filter_In in Hz. }
        rewrite Forall_forall in Hy. specialize (Hy z Hz).
        simpl. unfold ascending in Hy.
        destruct (JS.Date_parse (date x)) as [ tx | ]; [ | now elim Hx ].
        destruct (JS.Date_parse (date y)) as [ ty | ]; [ | tauto ].
        destruct (JS.Date_parse (date z)) as [ tz | ]; [ | tauto ].
        simpl in P. simpl. apply Z.ltb_ge in P.
        destruct (Z.ltb_spec 0 (tx - tz)); [ lia | reflexivity ].
Qed.

Lemma sortedTransactions_filter (p : Transaction -> bool) (l : list Transaction) :
  Forall (fun t => JS.Date_parse (date t) <> None) l ->
  sortedTransactions (filter p l) = filter p (sortedTransactions l).
Proof.
  induction l as [ | x l IH ]; intros H; [ reflexivity | ].
  inversion H as [ | ? ? Hx Hl ]; subst.
  change (sortedTransactions (x :: l))
    with (JS.insert
            (fun a b => JS.timeDiff (JS.Date_parse (date a)) (JS.Date_parse (date b)))
            x (sortedTransactions l)).
  rewrite (filter_insert_sorted p x _ Hx (sortedTransactions_strongly l Hl)).
  simpl. destruct (p x); [ | now apply IH ].
  change (sortedTransactions (x :: filter p l))
    with (JS.insert
            (fun a b => JS.timeDiff (JS.Date_parse (date a)) (JS.Date_parse (date b)))
            x (sortedTransactions (filter p l))).
  now rewrite IH.
Qed.

(** X3.  When every date of the collection is a valid date, deleting by id
    takes the records with that id out of the sorted view and out of every
    group and bucket, and moves no other record: each view after the
    deletion is the view before it without those records. *)
Theorem deleteTransaction_keeps_order (id0 : string) (st : AppState) :
  Forall (fun t => JS.Date_parse (date t) <> None) (transactions st) ->
  let keep := fun t => negb (String.eqb (id t) id0) in
  let txs := transactions st in
  let txs' := transactions (deleteTransaction true id0 st) in
  sortedTransactions txs' = filter keep (sortedTransactions txs)
  /\ App.receitas (App.grouped txs') = filter keep (App.receitas (App.grouped txs))
  /\ AppPro.gastosFixos (AppPro.grouped txs')
     = filter keep (AppPro.gastosFixos (AppPro.grouped txs))
  /\ AppPro.gastosCartoes (AppPro.grouped txs')
     = filter keep (AppPro.gastosCartoes (AppPro.grouped txs))
  /\ AppPro.gastosDiversos (AppPro.grouped txs')
     = filter keep (AppPro.gastosDiversos (AppPro.grouped txs))
  /\ map snd (AppPro.cartoesDetalhe (AppPro.grouped txs'))
     = map (fun b => filter keep (snd b)) (AppPro.cartoesDetalhe (AppPro.grouped txs)).
Proof.
  intros H keep txs txs'.
  assert (S : sortedTransactions txs' = filter keep (sortedTransactions txs))
    by (apply sortedTransactions_filter, H).
  assert (C : forall p, filter p (filter keep (sortedTransactions txs))
                        = filter keep (filter p (sortedTransactions txs))).
  { intros p. rewrite !filter_filter_and. apply filter_ext. intros t. apply andb_comm. }
  split; [ exact S | ]. simpl. rewrite S.
  repeat split; rewrite ?C; try reflexivity.
  rewrite filter_rev. reflexivity.
Qed.

Lemma deleteTransaction_keeps_order_witness :
  let st :=
    mkAppState
      [ mkTransaction "a" "Rent" 1500 "2024-03-01" GASTO_FIXO "GASTO_FIXO" false
          (Some "2024-03-01") None None;
        mkTransaction "b" "Salary" 5000 "2024-01-15" RECEITA "RECEITA" true
          (Some "2024-01-15") None None;
        mkTransaction "c" "Bonus" 300 "2024-02-01" RECEITA "RECEITA" true
          (Some "2024-02-01") None None ]
      false "" false idle [] in
  sortedTransactions (transactions (deleteTransaction true "b" st))
  = filter (fun t => negb (String.eqb (id t) "b")) (sortedTransactions (transactions st)).
Proof.
  intros st. exact (proj1 (deleteTransaction_keeps_order "b" st witness_valid_dates)).
Defined.

(** Without valid dates the order of the others is not kept: with a record
    of unreadable date between them, two records stay out of date order,
    and deleting it lets them fall into order. *)
Example deleteTransaction_reorders_around_invalid_date :
  let r i d := mkTransaction i "" 0 d GASTO_DIVERSO "" false None None None in
  let st := mkAppState [r "a" "2024-03-01"; r "n" "soon"; r "b" "2024-01-15"]
              false "" false idle [] in
  map id (sortedTransactions (transactions st)) = ["a"; "n"; "b"]
  /\ map id (sortedTransactions (transactions (deleteTransaction true "n" st)))
     = ["b"; "a"].
Proof. split; reflexivity. Qed.

(* ================================================================== *)
(** * How the handlers compose *)
(* ================================================================== *)

Lemma toggled_commute (i j : string) (t : Transaction) :
  toggled i (toggled j t) = toggled j (toggled i t).
Proof.
  unfold toggled at 1 3.
  destruct (toggled_fields j t) as (-> & _), (toggled_fields i t) as (-> & _).
  unfold toggled.
  destruct (String.eqb (id t) i), (String.eqb (id t) j); reflexivity.
Qed.

(** X4.  The order of two handler calls on different or equal ids does not
    matter: two toggles commute, two deletions commute, and a toggle
    commutes with a deletion (the answers to the confirmations kept with
    their calls). *)
Theorem togglePaid_deleteTransaction_commute (i j : string) (c d : bool)
    (st : AppState) :
  togglePaid i (togglePaid j st) = togglePaid j (togglePaid i st)
  /\ deleteTransaction c i (deleteTransaction d j st)
     = deleteTransaction d j (deleteTransaction c i st)
  /\ deleteTransaction c i (togglePaid j st)
     = togglePaid j (deleteTransaction c i st).
Proof.
  split; [ | split ].
  - unfold togglePaid, setTransactions; simpl. f_equal.
    fold (toggled i) (toggled j). rewrite !map_map.
    apply map_ext. intros t. apply toggled_commute.
  - destruct c, d; try reflexivity.
    unfold deleteTransaction, setTransactions; simpl. f_equal.
    rewrite !filter_filter_and. apply filter_ext. intros t. apply andb_comm.
  - destruct c; [ | reflexivity ].
    unfold deleteTransaction, togglePaid, setTransactions; simpl. f_equal.
    fold (toggled j). rewrite filter_map_swap. f_equal.
    apply filter_ext. intros t.
    destruct (toggled_fields j t) as (-> & _). reflexivity.
Qed.

(** X5.  Adding a record and then deleting by its id gives back the
    collection as it was, provided the id was not in use; the form is
    closed, and nothing else has changed.  When the id was in use the
    deletion also takes the older records that carry it. *)
Theorem add_then_delete (random36 : string) (f : TransactionForm.State)
    (st : AppState) :
  TransactionForm.description f <> "" ->
  TransactionForm.amount f <> "" ->
  TransactionForm.date f <> "" ->
  let id0 := JS.substr random36 2 9 in
  transactions (deleteTransaction true id0 (add random36 f st))
  = filter (fun t => negb (String.eqb (id t) id0)) (transactions st)
  /\ (~ In id0 (map id (transactions st)) ->
      deleteTransaction true id0 (add random36 f st) = setIsFormOpen false st).
Proof.
  intros Hd Ha Ht id0. rewrite add_unfold.
  apply not_string_false in Hd, Ha, Ht. rewrite Hd, Ha, Ht.
  cbn [orb deleteTransaction setTransactions setIsFormOpen transactions
       isFormOpen sheetUrl isSyncing syncStatus alerts filter created id].
  fold id0. rewrite String.eqb_refl.
  cbn [negb]. split; [ reflexivity | ].
  intros Hfresh. rewrite filter_all; [ reflexivity | ].
  intros t Hin. apply negb_true_iff, String.eqb_neq.
  now apply (unknown_id_neq id0 (transactions st)).
Qed.

Lemma add_then_delete_witness :
  let st :=
    mkAppState
      [ mkTransaction "p0q8r7s6t" "Salary" 5000 "2024-01-05" RECEITA "RECEITA" true
          (Some "2024-01-05") None None ]
      true "" false idle [] in
  let f := TransactionForm.mkState "Rent" "1500" "2024-01-10" GASTO_FIXO "" "" in
  deleteTransaction true "k3xq9d2ab" (add "0.k3xq9d2ab71" f st) = setIsFormOpen false st.
Proof.
  intros st f.
  refine (proj2 (add_then_delete "0.k3xq9d2ab71" f st _ _ _) _);
    try (simpl; discriminate).
  simpl. intros [ H | [] ]. discriminate H.
Defined.

(* ================================================================== *)
(** * The record invariants under local operations *)
(* ================================================================== *)

Lemma created_wellFormed (x : string) (f : TransactionForm.State) :
  TransactionForm.description f <> "" ->
  TransactionForm.date f <> "" ->
  wellFormed (created x f).
Proof.
  intros Hd Ht. unfold wellFormed, created; simpl.
  repeat (split; [ assumption || reflexivity | ]).
  destruct (TransactionForm.type f); simpl; split; split;
    intros H; congruence.
Qed.

Lemma toggled_wellFormed (id0 : string) (t : Transaction) :
  wellFormed t -> wellFormed (toggled id0 t).
Proof.
  unfold toggled. destruct (String.eqb (id t) id0); [ | tauto ].
  unfold wellFormed, withIsPaid; simpl. tauto.
Qed.

Lemma runOp_wellFormed (op : LocalOp) (st : AppState) :
  Forall wellFormed (transactions st) ->
  Forall wellFormed (transactions (runOp op st)).
Proof.
  intros H. destruct op as [ r f | id0 | c id0 | post | post ]; cbn [runOp].
  - rewrite add_unfold.
    destruct (not_string (TransactionForm.description f)) eqn:Ed; [ exact H | ].
    destruct (not_string (TransactionForm.amount f)) eqn:Ea; [ exact H | ].
    destruct (not_string (TransactionForm.date f)) eqn:Et; [ exact H | ].
    simpl. constructor; [ | exact H ].
    apply created_wellFormed; now apply not_string_false.
  - rewrite togglePaid_transactions. apply Forall_forall.
    intros t Ht. apply in_map_iff in Ht. destruct Ht as (u & <- & Hu).
    apply toggled_wellFormed. revert u Hu. now apply Forall_forall.
  - destruct c; [ | exact H ]. simpl. apply Forall_forall.
    intros t Ht. apply filter_In in Ht. destruct Ht as [Ht _].
    revert t Ht. now apply Forall_forall.
  - unfold App_handleSync. destruct (not_string (sheetUrl st)); [ exact H | ].
    destruct (syncToGoogleSheets _ _ _); exact H.
  - unfold AppPro_handleSync. destruct (not_string (sheetUrl st)); [ exact H | ].
    destruct (syncToGoogleSheets _ _ _); exact H.
Qed.

Lemma run_wellFormed (ops : list LocalOp) (st : AppState) :
  Forall wellFormed (transactions st) ->
  Forall wellFormed (transactions (run ops st)).
Proof.
  unfold run. revert st.
  induction ops as [ | op ops IH ]; intros st H; simpl; [ exact H | ].
  apply IH, runOp_wellFormed, H.
Qed.

Lemma bucket_of_wellFormed (name : string) (txs : list Transaction) :
  Forall wellFormed txs ->
  Forall (fun t => type t = GASTO_CARTAO)
    (filter (cardName_is name) (sortedTransactions txs)).
Proof.
  intros W. apply Forall_forall. intros t Ht.
  apply filter_In in Ht. destruct Ht as [Ht Hc].
  apply (proj1 (sortedTransactions_In txs t)) in Ht.
  rewrite Forall_forall in W. destruct (W t Ht) as (_ & _ & _ & _ & Hcard & _).
  apply Hcard. apply cardName_is_true in Hc. congruence.
Qed.

(** X6.  Whatever sequence of submits, toggles, deletions and pushes runs
    on a ledger that starts empty, every record of the collection keeps
    the invariants a submit establishes: a description and a date that are
    not empty, a category that is its type, a due date that is its date,
    and a card name and installments exactly on card expenses.  So every
    bucket holds card expenses only.  (A pull is not among the operations:
    it takes the remote body as it is.) *)
Theorem local_operations_keep_records_wellFormed (ops : list LocalOp)
    (isFormOpen0 : bool) (sheetUrl0 : string) :
  let st := run ops (mkAppState [] isFormOpen0 sheetUrl0 false idle []) in
  Forall wellFormed (transactions st)
  /\ Forall (fun b => Forall (fun t => type t = GASTO_CARTAO) (snd b))
       (App.cartoes (App.grouped (transactions st)))
  /\ Forall (fun b => Forall (fun t => type t = GASTO_CARTAO) (snd b))
       (AppPro.cartoesDetalhe (AppPro.grouped (transactions st))).
Proof.
  intros st.
  assert (W : Forall wellFormed (transactions st))
    by (apply run_wellFormed; constructor).
  split; [ exact W | ].
  split; simpl; repeat (constructor; [ now apply bucket_of_wellFormed | ]);
    constructor.
Qed.

Example run_sample :
  let salary := TransactionForm.mkState "Salary" "5000" "2024-01-05" RECEITA "" "" in
  let market := TransactionForm.mkState "Mercado" "89.90" "2024-01-12" GASTO_CARTAO
                  "Torra" "1/3" in
  let st :=
    run [ OpAdd "0.p0q8r7s6t5u" salary; OpAdd "0.k3xq9d2ab71" market;
          OpToggle "k3xq9d2ab"; OpDelete true "p0q8r7s6t" ]
      (mkAppState [] true "" false idle []) in
  map (fun t => (id t, isPaid t, cardName t)) (transactions st)
  = [("k3xq9d2ab", true, Some "Torra")].
Proof. reflexivity. Qed.

(* ================================================================== *)
(** * Totals under a toggle and under a submit *)
(* ================================================================== *)





Lemma filter_insert_other {A : Type} (cmp : A -> A -> option Z) (p : A -> bool)
    (x : A) (l : list A) :
  p x = false -> filter p (JS.insert cmp x l) = filter p l.
Proof.
  intros Hx. induction l as [ | y l IH ]; simpl; [ now rewrite Hx | ].
  destruct (JS.positive_result (cmp x y)); simpl; [ now rewrite IH | ].
  now rewrite Hx.
Qed.

Lemma group_without_new (p : Transaction -> bool) (t : Transaction)
    (l : list Transaction) :
  p t = false ->
  filter p (sortedTransactions (t :: l)) = filter p (sortedTransactions l).
Proof. apply filter_insert_other. Qed.

(** X8.  When every date in the collection after a submit is a valid date,
    the submit moves only the totals its record belongs to.  An income
    record leaves [expenses], [fixedPending] and [cardsPending] as they
    were; a record that is not income leaves [income] as it was, one that
    is not a fixed expense leaves [fixedPending], and one that is not a
    card expense leaves [cardsPending].  Both variants; the values are the
    same binary64 numbers, not only close: with valid dates the groups of
    the other types keep their order, so their sums are taken in the same
    order as before. *)
Theorem add_moves_own_totals_only (random36 : string) (f : TransactionForm.State)
    (st : AppState) :
  let txs := transactions st in
  let txs' := transactions (add random36 f st) in
  let ty := TransactionForm.type f in
  Forall (fun t => JS.Date_parse (date t) <> None) txs' ->
  (ty = RECEITA ->
   expenses (App.totals txs') = expenses (App.totals txs)
   /\ expenses (AppPro.totals txs') = expenses (AppPro.totals txs))
  /\ (ty <> RECEITA ->
      income (App.totals txs') = income (App.totals txs)
      /\ income (AppPro.totals txs') = income (AppPro.totals txs))
  /\ (ty <> GASTO_FIXO ->
      fixedPending (App.totals txs') = fixedPending (App.totals txs)
      /\ fixedPending (AppPro.totals txs') = fixedPending (AppPro.totals txs))
  /\ (ty <> GASTO_CARTAO ->
      cardsPending (App.totals txs') = cardsPending (App.totals txs)
      /\ cardsPending (AppPro.totals txs') = cardsPending (AppPro.totals txs)).
Proof.
  intros txs txs' ty _. unfold txs'. rewrite add_unfold.
  destruct (_ || _); [ repeat split | ].
  cbn [setIsFormOpen setTransactions transactions]. fold txs.
  set (t := created (JS.substr random36 2 9) f).
  assert (T : forall k, type_is k t = TransactionType_eqb ty k) by reflexivity.
  assert (G : forall k, ty <> k ->
                filter (type_is k) (sortedTransactions (t :: txs))
                = filter (type_is k) (sortedTransactions txs)).
  { intros k Hk. apply group_without_new. rewrite T.
    destruct (TransactionType_eqb ty k) eqn:E; [ | reflexivity ].
    apply TransactionType_eqb_eq in E. contradiction. }
  split; [ | split; [ | split ] ].
  - intros E. split; simpl.
    + rewrite T, E. reflexivity.
    + rewrite !G by (rewrite E; discriminate). reflexivity.
  - intros N. split; simpl; rewrite G by exact N; reflexivity.
  - intros N. split; simpl; rewrite G by exact N; reflexivity.
  - intros N. split; simpl; rewrite G by exact N; reflexivity.
Qed.

Lemma add_moves_own_totals_only_witness :
  let st :=
    mkAppState
      [ mkTransaction "k3x" "Rent" 1500 "2024-01-10" GASTO_FIXO "GASTO_FIXO"
          false (Some "2024-01-10") None None ]
      true "" false idle [] in
  let f := TransactionForm.mkState "Salary" "5000" "2024-01-05" RECEITA "" "" in
  expenses (App.totals (transactions (add "0.p0q8r7s6t5u" f st)))
  = expenses (App.totals (transactions st))
  /\ expenses (AppPro.totals (transactions (add "0.p0q8r7s6t5u" f st)))
     = expenses (AppPro.totals (transactions st)).
Proof.
  intros st f.
  assert (V : Forall (fun t => JS.Date_parse (date t) <> None)
                (transactions (add "0.p0q8r7s6t5u" f st))).
  { apply Forall_forall. intros t [ <- | [ <- | [] ] ]; vm_compute; discriminate. }
  exact (proj1 (add_moves_own_totals_only "0.p0q8r7s6t5u" f st V) eq_refl).
Defined.

(* ================================================================== *)
(** * The date the form opens with *)
(* ================================================================== *)

Lemma isLeapYear_spec (y : Z) :
  JS.isLeapYear y = true <-> (y mod 4 = 0 /\ y mod 100 <> 0) \/ y mod 400 = 0.
Proof.
  unfold JS.isLeapYear.
  rewrite orb_true_iff, andb_true_iff, negb_true_iff, !Z.eqb_eq, Z.eqb_neq.
  tauto.
Qed.

(** [ISO.civilFromDays] gives a date of the calendar, the one
    [JS.makeDay] numbers as that day. *)
Lemma civilFromDays_makeDay (day : Z) :
  let '(y, m, d) := ISO.civilFromDays day in
  1 <= m <= 12 /\ 1 <= d <= JS.daysInMonth y m /\ JS.makeDay y m d = day.
Proof.
  unfold ISO.civilFromDays.
  set (z := day + 719468). set (era := z / 146097).
  set (doe := z - era * 146097).
  set (yoe := (doe - doe / 1460 + doe / 36524 - doe / 146096) / 365).
  set (doy := doe - (365 * yoe + yoe / 4 - yoe / 100)).
  set (mp := (5 * doy + 2) / 153).
  set (d := doy - (153 * mp + 2) / 5 + 1).
  assert (Hdoe : 0 <= doe < 146097)
    by (unfold doe, era; Z.div_mod_to_equations; lia).
  assert (Hyoe : 0 <= yoe <= 399 /\ 0 <= doy <= 365
                 /\ (doy = 365 ->
                     ((yoe + 1) mod 4 = 0 /\ (yoe + 1) mod 100 <> 0)
                     \/ (yoe + 1) mod 400 = 0))
    by (unfold doy, yoe; Z.div_mod_to_equations; lia).
  destruct Hyoe as (Hyoe & Hdoy & Hleap).
  assert (Hmp : 0 <= mp <= 11) by (unfold mp; Z.div_mod_to_equations; lia).
  assert (Hd : 1 <= d <= 31) by (unfold d, mp; Z.div_mod_to_equations; lia).
  destruct (Z.ltb_spec mp 10) as [ Hlt | Hge ].
  - (* March to December *)
    assert (Hm : (mp + 3 <=? 2) = false) by (apply Z.leb_gt; lia).
    rewrite Hm. split; [ lia | ]. split.
    + split; [ lia | ]. unfold JS.daysInMonth.
      assert (E2 : (mp + 3 =? 2) = false) by (apply Z.eqb_neq; lia). rewrite E2.
      destruct (Z.eqb_spec (mp + 3) 4), (Z.eqb_spec (mp + 3) 6),
        (Z.eqb_spec (mp + 3) 9), (Z.eqb_spec (mp + 3) 11); simpl;
        unfold d, mp in *; Z.div_mod_to_equations; lia.
    + unfold JS.makeDay. rewrite Hm.
      replace ((yoe + era * 400) / 400) with era by (Z.div_mod_to_equations; lia).
      replace ((mp + 3 + 9) mod 12) with mp by (Z.div_mod_to_equations; lia).
      cbv zeta. replace (yoe + era * 400 - era * 400) with yoe by lia.
      unfold d, doy, doe, z. lia.
  - (* January and February, of the next civil year *)
    assert (Hm : (mp - 9 <=? 2) = true) by (apply Z.leb_le; lia).
    rewrite Hm. split; [ lia | ]. split.
    + split; [ lia | ]. unfold JS.daysInMonth.
      destruct (Z.eqb_spec (mp - 9) 2) as [ Feb | Jan ].
      * destruct (JS.isLeapYear (yoe + era * 400 + 1)) eqn:L.
        -- unfold d, mp in *; Z.div_mod_to_equations; lia.
        -- assert (doy <> 365).
           { intros E. specialize (Hleap E).
             assert (JS.isLeapYear (yoe + era * 400 + 1) = true); [ | congruence ].
             apply isLeapYear_spec.
             replace (yoe + era * 400 + 1) with (yoe + 1 + era * 100 * 4) at 1 by lia.
             replace (yoe + era * 400 + 1) with (yoe + 1 + era * 4 * 100) at 1 by lia.
             replace (yoe + era * 400 + 1) with (yoe + 1 + era * 400) by lia.
             rewrite !Z.mod_add by discriminate. exact Hleap. }
           unfold d, mp in *; Z.div_mod_to_equations; lia.
      * assert (E4 : ((mp - 9 =? 4) || (mp - 9 =? 6) || (mp - 9 =? 9) || (mp - 9 =? 11)) = false).
        { repeat (apply orb_false_iff; split); apply Z.eqb_neq; lia. }
        rewrite E4. lia.
    + unfold JS.makeDay. rewrite Hm.
      replace (yoe + era * 400 + 1 - 1) with (yoe + era * 400) by lia.
      replace ((yoe + era * 400) / 400) with era by (Z.div_mod_to_equations; lia).
      replace ((mp - 9 + 9) mod 12) with mp by (Z.div_mod_to_equations; lia).
      cbv zeta. replace (yoe + era * 400 - era * 400) with yoe by lia.
      unfold d, doy, doe, z. lia.
Qed.

Lemma digitValue_digitChar (k : Z) :
  0 <= k <= 9 -> JS.digitValue (ISO.digitChar k) = Some k.
Proof.
  intros H.
  assert (E : k = 0 \/ k = 1 \/ k = 2 \/ k = 3 \/ k = 4 \/ k = 5 \/ k = 6
              \/ k = 7 \/ k = 8 \/ k = 9) by lia.
  repeat (destruct E as [ -> | E ]; [ reflexivity | ]). now subst k.
Qed.

Lemma digits_two (n : Z) :
  0 <= n <= 99 ->
  JS.digits [ISO.digitChar (n / 10 mod 10); ISO.digitChar (n mod 10)] = Some n.
Proof.
  intros H. unfold JS.digits; cbn [fold_left].
  rewrite !digitValue_digitChar by (Z.div_mod_to_equations; lia).
  f_equal. Z.div_mod_to_equations; lia.
Qed.

Lemma digits_four (n : Z) :
  0 <= n <= 9999 ->
  JS.digits
    [ ISO.digitChar (n / 10 / 10 / 10 mod 10); ISO.digitChar (n / 10 / 10 mod 10);
      ISO.digitChar (n / 10 mod 10); ISO.digitChar (n mod 10) ]
  = Some n.
Proof.
  intros H. unfold JS.digits; cbn [fold_left].
  rewrite !digitValue_digitChar by (Z.div_mod_to_equations; lia).
  f_equal. Z.div_mod_to_equations; lia.
Qed.

(** A date written the ISO way reads back as that date at 00:00 UTC. *)
Lemma Date_parse_written (y m d : Z) :
  0 <= y <= 9999 -> 1 <= m <= 12 -> 1 <= d <= JS.daysInMonth y m ->
  JS.Date_parse
    (ISO.year y ++ "-" ++ ISO.padDigits 2 m "" ++ "-" ++ ISO.padDigits 2 d "")
  = Some (JS.makeDay y m d * JS.msPerDay).
Proof.
  intros Hy Hm Hd.
  assert (Hd' : d <= 31).
  { unfold JS.daysInMonth in Hd.
    destruct (m =? 2); [ destruct (JS.isLeapYear y) | destruct (_ || _) ]; lia. }
  unfold ISO.year.
  replace ((0 <=? y) && (y <=? 9999)) with true
    by (symmetry; apply andb_true_iff; split; apply Z.leb_le; lia).
  unfold JS.Date_parse. cbn [ISO.padDigits append list_ascii_of_string].
  change (Ascii.eqb "-" "-") with true. cbn [andb].
  rewrite digits_four by lia. rewrite !digits_two by lia.
  replace ((1 <=? m) && (m <=? 12) && (1 <=? d) && (d <=? JS.daysInMonth y m))
    with true; [ reflexivity | ].
  symmetry. repeat (apply andb_true_iff; split); apply Z.leb_le; lia.
Qed.

Example datePart_samples :
  map ISO.datePart [0; -1; 1704898800000; 951868800000; 253402300799999; 253402300800000;
                    -62167219200001]
  = ["1970-01-01"; "1969-12-31"; "2024-01-10"; "2000-03-01"; "9999-12-31";
     "+010000-01-01"; "-000001-12-31"].
Proof. vm_compute. reflexivity. Qed.

(** The years the four-digit form covers: from 0000-01-01T00:00Z to the
    end of 9999-12-31. *)
Lemma civilFromDays_year (day : Z) :
  JS.makeDay 0 1 1 <= day <= JS.makeDay 9999 12 31 ->
  0 <= fst (fst (ISO.civilFromDays day)) <= 9999.
Proof.
  intros H. change (JS.makeDay 0 1 1) with (-719528) in H.
  change (JS.makeDay 9999 12 31) with 2932896 in H.
  unfold ISO.civilFromDays.
  set (z := day + 719468). set (era := z / 146097).
  set (doe := z - era * 146097).
  set (yoe := (doe - doe / 1460 + doe / 36524 - doe / 146096) / 365).
  set (doy := doe - (365 * yoe + yoe / 4 - yoe / 100)).
  set (mp := (5 * doy + 2) / 153).
  assert (Hz : -60 <= z <= 3652364) by (unfold z; lia).
  assert (Hera : -1 <= era <= 24) by (unfold era; Z.div_mod_to_equations; lia).
  assert (Hdoe : 0 <= doe < 146097
                 /\ (era = -1 -> 146037 <= doe) /\ (era = 24 -> doe <= 146036))
    by (unfold doe, era; Z.div_mod_to_equations; lia).
  destruct Hdoe as (Hdoe & Hlow & Hhigh).
  assert (Hyoe : 0 <= yoe <= 399 /\ 0 <= doy <= 365
                 /\ (146037 <= doe -> yoe = 399))
    by (unfold doy, yoe; Z.div_mod_to_equations; lia).
  destruct Hyoe as (Hyoe & Hdoy & Hlast).
  assert (Hq : yoe = 399 -> yoe / 4 - yoe / 100 = 96)
    by (intros ->; reflexivity).
  assert (Hmp : (mp < 10 -> doy <= 305) /\ (10 <= mp -> 306 <= doy))
    by (unfold mp; Z.div_mod_to_equations; lia).
  destruct Hmp as [Hmar Hjan].
  assert (Hmp : 0 <= mp <= 11) by (unfold mp; Z.div_mod_to_equations; lia).
  assert (Edoy : doe = 365 * yoe + (yoe / 4 - yoe / 100) + doy) by (unfold doy; lia).
  destruct (Z.ltb_spec mp 10) as [ Hlt | Hge ].
  - replace (mp + 3 <=? 2) with false by (symmetry; apply Z.leb_gt; lia).
    cbn [fst]. specialize (Hmar Hlt).
    assert (era <> -1).
    { intros E. specialize (Hlow E). specialize (Hlast Hlow). specialize (Hq Hlast). lia. }
    lia.
  - replace (mp - 9 <=? 2) with true
      by (symmetry; apply Z.leb_le; lia).
    cbn [fst]. specialize (Hjan Hge).
    assert (era = 24 -> yoe <= 398).
    { intros E. specialize (Hhigh E).
      destruct (Z.eq_dec yoe 399) as [ E9 | ]; [ | lia ].
      specialize (Hq E9). lia. }
    lia.
Qed.

Lemma Date_parse_datePart (now : Z) :
  JS.makeDay 0 1 1 * JS.msPerDay <= now < (JS.makeDay 9999 12 31 + 1) * JS.msPerDay ->
  JS.Date_parse (ISO.datePart now) = Some (now / JS.msPerDay * JS.msPerDay).
Proof.
  intros H. unfold ISO.datePart.
  set (day := now / JS.msPerDay).
  assert (Hday : JS.makeDay 0 1 1 <= day <= JS.makeDay 9999 12 31).
  { change (JS.makeDay 0 1 1) with (-719528) in *.
    change (JS.makeDay 9999 12 31) with 2932896 in *.
    unfold day, JS.msPerDay in *. Z.div_mod_to_equations. lia. }
  pose proof (civilFromDays_year day Hday) as Hy.
  pose proof (civilFromDays_makeDay day) as Hc.
  destruct (ISO.civilFromDays day) as [[y m] d]. cbn [fst] in Hy.
  destruct Hc as (Hm & Hd & E).
  rewrite (Date_parse_written y m d Hy Hm Hd), E. reflexivity.
Qed.

(** X9.  The date the form opens with reads back as the start of the
    current UTC day: for a clock between the years 0000 and 9999,
    [Date.parse] of [new Date().toISOString().split('T')[0]] is the clock
    rounded down to midnight UTC.  It is the UTC date, not the local
    one. *)
Theorem default_date_reads_back (now : Z) :
  JS.makeDay 0 1 1 * JS.msPerDay <= now < (JS.makeDay 9999 12 31 + 1) * JS.msPerDay ->
  JS.Date_parse (TransactionForm.date (TransactionForm_initial now))
  = Some (now / JS.msPerDay * JS.msPerDay).
Proof. exact (Date_parse_datePart now). Qed.

Lemma default_date_reads_back_witness :
  JS.Date_parse (TransactionForm.date (TransactionForm_initial 1704898800000))
  = Some (1704898800000 / JS.msPerDay * JS.msPerDay).
Proof.
  apply (default_date_reads_back 1704898800000). vm_compute. split; congruence.
Defined.

(** X10.  Whether a record is overdue, by time zone.  For a date string
    that reads as a date: at or east of Greenwich an unpaid record is
    overdue exactly when it is dated before the local day of the clock;
    west of Greenwich it is overdue exactly when it is dated on that day
    or before it, one day earlier. *)
Theorem isOverdue_by_time_zone (clock : Clock) (dateStr : string) (ms : Z) :
  JS.Date_parse dateStr = Some ms ->
  (0 <= tz clock < JS.msPerDay ->
   isOverdue clock dateStr false
   = (ms / JS.msPerDay <? localDay (tz clock) (now clock)))
  /\ (- JS.msPerDay <= tz clock < 0 ->
      isOverdue clock dateStr false
      = (ms / JS.msPerDay <=? localDay (tz clock) (now clock))).
Proof.
  intros H. destruct (Date_parse_midnight_UTC dateStr ms H) as [day ->].
  rewrite Z.div_mul by discriminate.
  split; intros Htz;
    [ now apply isOverdue_east_of_UTC | now apply isOverdue_west_of_UTC ].
Qed.

Lemma isOverdue_by_time_zone_witness :
  isOverdue (mkClock 3600000 1704898800000) "2024-01-10" false
  = (1704844800000 / JS.msPerDay <? localDay 3600000 1704898800000).
Proof.
  apply (proj1 (isOverdue_by_time_zone (mkClock 3600000 1704898800000)
                  "2024-01-10" 1704844800000 eq_refl)).
  simpl. unfold JS.msPerDay. lia.
Defined.

(** X11.  An unpaid record entered with the date the form opens with can
    be overdue the moment it is created.  East of Greenwich it is, exactly
    when the local date is already one day ahead of the UTC date (the
    first hours of the local day); west of Greenwich it is, exactly when
    the local date is still the UTC date (the whole local day but its last
    hours).  Only on UTC itself it never is. *)
Theorem default_date_overdue (clock : Clock) :
  JS.makeDay 0 1 1 * JS.msPerDay <= now clock
                                 < (JS.makeDay 9999 12 31 + 1) * JS.msPerDay ->
  let dateStr := TransactionForm.date (TransactionForm_initial (now clock)) in
  let timeOfDayUTC := now clock mod JS.msPerDay in
  (0 <= tz clock < JS.msPerDay ->
   isOverdue clock dateStr false = (JS.msPerDay <=? timeOfDayUTC + tz clock))
  /\ (- JS.msPerDay <= tz clock < 0 ->
      isOverdue clock dateStr false = (0 <=? timeOfDayUTC + tz clock)).
Proof.
  intros H dateStr timeOfDayUTC.
  assert (P : JS.Date_parse dateStr
              = Some (now clock / JS.msPerDay * JS.msPerDay))
    by exact (Date_parse_datePart (now clock) H).
  split; intros Htz.
  - rewrite (isOverdue_east_of_UTC clock dateStr _ Htz P).
    unfold localDay, timeOfDayUTC, JS.msPerDay in *.
    destruct (Z.ltb_spec (now clock / 86400000) ((now clock + tz clock) / 86400000));
      [ symmetry; apply Z.leb_le | symmetry; apply Z.leb_gt ];
      Z.div_mod_to_equations; lia.
  - rewrite (isOverdue_west_of_UTC clock dateStr _ Htz P).
    unfold localDay, timeOfDayUTC, JS.msPerDay in *.
    destruct (Z.leb_spec (now clock / 86400000) ((now clock + tz clock) / 86400000));
      [ symmetry; apply Z.leb_le | symmetry; apply Z.leb_gt ];
      Z.div_mod_to_equations; lia.
Qed.

Lemma default_date_overdue_witness :
  isOverdue (mkClock (- 10800000) 1704898800000)
    (TransactionForm.date (TransactionForm_initial 1704898800000)) false
  = (0 <=? 1704898800000 mod JS.msPerDay + - 10800000).
Proof.
  refine (proj2 (default_date_overdue (mkClock (- 10800000) 1704898800000) _) _).
  - vm_compute. split; congruence.
  - simpl. unfold JS.msPerDay. lia.
Defined.

(* ================================================================== *)
(** * The push *)
(* ================================================================== *)

(** X12.  A push never changes the local state beyond its own indicators:
    in both variants the collection, the endpoint and the form flag are
    what they were.  Without an endpoint no request is issued, one alert is
    shown and nothing else changes; with one, exactly one request goes to
    that endpoint, its body is the whole collection, and [isSyncing] is
    false at the end. *)
Theorem handleSync_sends_collection_keeps_state (post : Post) (st : AppState) :
  let r := App_handleSync post st in
  let r' := AppPro_handleSync post st in
  (transactions (after r) = transactions st
   /\ sheetUrl (after r) = sheetUrl st
   /\ isFormOpen (after r) = isFormOpen st
   /\ transactions (after r') = transactions st
   /\ sheetUrl (after r') = sheetUrl st
   /\ isFormOpen (after r') = isFormOpen st)
  /\ (sheetUrl st = "" ->
      requests r = [] /\ requests r' = [] /\ timers r = [] /\ timers r' = []
      /\ after r = alert "Configure a URL da Planilha nas configurações." st
      /\ after r' = alert "Por favor, configure a URL da Planilha primeiro." st)
  /\ (sheetUrl st <> "" ->
      requests r = [(sheetUrl st, transactions st)]
      /\ requests r' = [(sheetUrl st, transactions st)]
      /\ isSyncing (after r) = false
      /\ isSyncing (after r') = false).
Proof.
  unfold App_handleSync, AppPro_handleSync.
  destruct (not_string (sheetUrl st)) eqn:E.
  - split; [ repeat split | split ].
    + intros _. repeat split.
    + intros H. apply not_string_true in E. contradiction.
  - destruct (syncToGoogleSheets post (sheetUrl st) (transactions st));
      (split; [ repeat split | split ];
       [ intros H; apply not_string_false in E; contradiction
       | intros _; repeat split ]).
Qed.

Lemma handleSync_sends_collection_keeps_state_witness :
  let t := mkTransaction "k3x" "Rent" 1500 "2024-01-10" GASTO_FIXO "GASTO_FIXO"
             false (Some "2024-01-10") None None in
  let st := mkAppState [t] false "https://script.example/exec" true idle [] in
  let post := fun (_ : string) (_ : list Transaction) =>
                @None googleSheetsService.Response in
  requests (App_handleSync post st) = [("https://script.example/exec", [t])]
  /\ requests (AppPro_handleSync post st) = [("https://script.example/exec", [t])]
  /\ isSyncing (after (App_handleSync post st)) = false
  /\ isSyncing (after (AppPro_handleSync post st)) = false.
Proof.
  intros t st post.
  apply (proj2 (proj2 (handleSync_sends_collection_keeps_state post st))).
  simpl. discriminate.
Defined.

(** X13.  What a push reports depends on the transport alone.  With an
    endpoint set, the status is [success], and the three-second timer that
    resets it is set, whenever [fetch] resolves, whatever the response is
    (its status and body are never read); the status is [error], with no
    timer, exactly when [fetch] rejects, and only the second variant then
    shows an alert. *)
Theorem handleSync_status (post : Post) (st : AppState) :
  sheetUrl st <> "" ->
  let r := App_handleSync post st in
  let r' := AppPro_handleSync post st in
  (forall response,
     post (sheetUrl st) (transactions st) = Some response ->
     syncStatus (after r) = success /\ timers r = [3000]
     /\ syncStatus (after r') = success /\ timers r' = [3000]
     /\ alerts (after r) = alerts st /\ alerts (after r') = alerts st)
  /\ (post (sheetUrl st) (transactions st) = None ->
      syncStatus (after r) = error /\ timers r = []
      /\ syncStatus (after r') = error /\ timers r' = []
      /\ alerts (after r) = alerts st
      /\ alerts (after r')
         = "Erro ao sincronizar. Verifique se a URL do Apps Script está correta e permite acesso."
           :: alerts st).
Proof.
  intros H. apply not_string_false in H.
  unfold App_handleSync, AppPro_handleSync, syncToGoogleSheets. rewrite H.
  destruct (post (sheetUrl st) (transactions st)); split;
    try (intros response E); try (intros E); try discriminate; repeat split.
Qed.

Lemma handleSync_status_witness :
  let st := mkAppState [] false "https://script.example/exec" false idle [] in
  let post := fun (_ : string) (_ : list Transaction) =>
                Some (googleSheetsService.mkResponse false None) in
  syncStatus (after (App_handleSync post st)) = success
  /\ timers (App_handleSync post st) = [3000]
  /\ syncStatus (after (AppPro_handleSync post st)) = success
  /\ timers (AppPro_handleSync post st) = [3000]
  /\ alerts (after (App_handleSync post st)) = alerts st
  /\ alerts (after (AppPro_handleSync post st)) = alerts st.
Proof.
  intros st post.
  refine (proj1 (handleSync_status post st _) _ eq_refl).
  simpl. discriminate.
Defined.

(* ================================================================== *)
(** * The pull, beyond the collection *)
(* ================================================================== *)

(** X14.  A pull leaves the endpoint, the form flag and the sync status as
    they were, also when it fails: a failed pull is announced by an alert
    and never by the [error] status.  Once issued (endpoint set, user
    confirmed) it ends with [isSyncing] false and shows one alert on
    failure in both variants; on success the first variant shows none and
    the second shows one. *)
Theorem handleLoad_indicators (fetch : googleSheetsService.Fetch) (confirmed : bool)
    (st : AppState) :
  let s := App.handleLoad fetch confirmed st in
  let s' := AppPro.handleLoad fetch confirmed st in
  (sheetUrl s = sheetUrl st /\ isFormOpen s = isFormOpen st
   /\ syncStatus s = syncStatus st
   /\ sheetUrl s' = sheetUrl st /\ isFormOpen s' = isFormOpen st
   /\ syncStatus s' = syncStatus st)
  /\ (sheetUrl st <> "" -> confirmed = true ->
      isSyncing s = false /\ isSyncing s' = false
      /\ match googleSheetsService.loadFromGoogleSheets fetch (sheetUrl st) with
         | inr _ =>
             alerts s = alerts st
             /\ alerts s' = "Dados carregados com sucesso!" :: alerts st
         | inl _ =>
             alerts s = "Erro ao carregar dados." :: alerts st
             /\ alerts s'
                = "Erro ao carregar dados. Verifique a URL do seu Google Apps Script."
                  :: alerts st
         end).
Proof.
  unfold App.handleLoad, AppPro.handleLoad.
  destruct (not_string (sheetUrl st)) eqn:E.
  - split; [ repeat split | ].
    intros H. apply not_string_true in E. contradiction.
  - destruct confirmed; simpl.
    + destruct (googleSheetsService.loadFromGoogleSheets fetch (sheetUrl st));
        split; repeat split.
    + split; [ repeat split | ]. intros _ H. discriminate H.
Qed.

Lemma handleLoad_indicators_witness :
  let st := mkAppState [] false "https://script.example/exec" false success [] in
  let fetch := fun _ : string => @None googleSheetsService.Response in
  isSyncing (App.handleLoad fetch true st) = false
  /\ isSyncing (AppPro.handleLoad fetch true st) = false
  /\ alerts (App.handleLoad fetch true st) = ["Erro ao carregar dados."]
  /\ alerts (AppPro.handleLoad fetch true st)
     = ["Erro ao carregar dados. Verifique a URL do seu Google Apps Script."].
Proof.
  intros st fetch.
  refine (proj2 (handleLoad_indicators fetch true st) _ eq_refl).
  simpl. discriminate.
Defined.

(* ================================================================== *)
(** * Overdue marks *)
(* ================================================================== *)

Lemma existsb_isOverdue_unpaid (clock : Clock) (items : list Transaction) :
  existsb (fun i => isOverdue clock (date i) (isPaid i)) items = true ->
  exists i, In i items /\ isPaid i = false
            /\ isOverdue clock (date i) (isPaid i) = true.
Proof.
  intros H. apply existsb_exists in H. destruct H as (i & Hi & Ho).
  exists i. split; [ exact Hi | ]. split; [ | exact Ho ].
  destruct (isPaid i); [ discriminate Ho | reflexivity ].
Qed.

(** X15.  The overdue marks agree with each other and with the paid marks.
    A card row of the second variant is never both marked paid and marked
    overdue, so a green dot means no overdue item; whenever a bucket of
    either variant is marked overdue the banner on top is shown; and when
    every record is paid there is no banner and no overdue mark on any
    bucket. *)
Theorem overdue_marks_agree (clock : Clock) (txs : list Transaction) :
  (forall items row,
     AppPro_cardRow clock items = Some row ->
     (hasOverdue row = true -> rowIsPaid row = false)
     /\ (AppPro_dot row = green -> hasOverdue row = false))
  /\ (forall name items,
        In (name, items) (App.cartoes (App.grouped txs))
        \/ In (name, items) (AppPro.cartoesDetalhe (AppPro.grouped txs)) ->
        existsb (fun i => isOverdue clock (date i) (isPaid i)) items = true ->
        overdueAlert clock txs = true)
  /\ (forallb isPaid txs = true ->
      overdueAlert clock txs = false
      /\ forall name items,
           In (name, items) (App.cartoes (App.grouped txs))
           \/ In (name, items) (AppPro.cartoesDetalhe (AppPro.grouped txs)) ->
           existsb (fun i => isOverdue clock (date i) (isPaid i)) items = false).
Proof.
  assert (B : forall name items,
            In (name, items) (App.cartoes (App.grouped txs))
            \/ In (name, items) (AppPro.cartoesDetalhe (AppPro.grouped txs)) ->
            forall i, In i items -> In i txs).
  { intros name items Hin i Hi.
    assert (Hb : In (name, items) (App.cartoes (App.grouped txs)))
      by (destruct Hin as [ H | H ]; exact H).
    now apply (bucket_members txs _ name items i (buckets_of_sorted txs) Hb) in Hi. }
  split; [ | split ].
  - intros items row. unfold AppPro_cardRow.
    destruct (PrimFloat.eqb _ _); [ discriminate | ]. intros [= <-].
    assert (P : existsb (fun i => isOverdue clock (date i) (isPaid i)) items = true ->
                (0 <? Z.of_nat (List.length items)) && forallb isPaid items = false).
    { intros H. destruct (existsb_isOverdue_unpaid clock items H) as (i & Hi & Hp & _).
      apply andb_false_iff. right.
      destruct (forallb isPaid items) eqn:F; [ | reflexivity ].
      rewrite forallb_forall in F. rewrite (F i Hi) in Hp. discriminate Hp. }
    split; [ exact P | ].
    unfold AppPro_dot; cbn [rowIsPaid hasOverdue].
    destruct (existsb _ items); [ rewrite (P eq_refl); discriminate | reflexivity ].
  - intros name items Hin H.
    destruct (existsb_isOverdue_unpaid clock items H) as (i & Hi & _ & Ho).
    apply existsb_exists. exists i. split; [ now apply (B name items Hin) | exact Ho ].
  - intros Hall. rewrite forallb_forall in Hall.
    assert (N : forall l, (forall i, In i l -> In i txs) ->
                  existsb (fun i => isOverdue clock (date i) (isPaid i)) l = false).
    { intros l Hl. destruct (existsb _ l) eqn:E; [ | reflexivity ].
      destruct (existsb_isOverdue_unpaid clock l E) as (i & Hi & Hp & _).
      rewrite (Hall i (Hl i Hi)) in Hp. discriminate Hp. }
    split; [ apply N; auto | ].
    intros name items Hin. apply N. now apply (B name items Hin).
Qed.

Lemma overdue_marks_agree_witness :
  let t := mkTransaction "m7" "Mercado" 80 "2024-01-12" GASTO_CARTAO "GASTO_CARTAO"
             true (Some "2024-01-12") (Some "Torra") (Some "1/2") in
  overdueAlert (mkClock 0 1704898800000) [t] = false.
Proof.
  intros t.
  exact (proj1 (proj2 (proj2 (overdue_marks_agree (mkClock 0 1704898800000) [t]))
                  eq_refl)).
Defined.

(** A bucket that shows is never empty, and what hides a bucket
    differs between the variants: the first variant hides a bucket exactly
    when it is empty, the second exactly when its amounts sum to zero, so
    it hides every empty bucket and also a bucket whose amounts cancel. *)
Lemma bucket_shown (clock : Clock) (items : list Transaction) :
  (App_card clock items = None <-> items = [])
  /\ (AppPro_cardRow clock items = None
      <-> PrimFloat.eqb (sumAmounts items) PrimFloat.zero = true)
  /\ (items = [] -> AppPro_cardRow clock items = None)
  /\ (forall row, AppPro_cardRow clock items = Some row ->
                  items <> [] /\ cardTotal row = sumAmounts items).
Proof.
  unfold App_card, AppPro_cardRow. split; [ | split; [ | split ] ].
  - destruct items as [ | t l ]; [ split; reflexivity | ].
    split; [ | discriminate ].
    replace (Z.of_nat (List.length (t :: l)) =? 0) with false; [ discriminate | ].
    symmetry. apply Z.eqb_neq. simpl List.length. lia.
  - destruct (PrimFloat.eqb _ _); split; congruence.
  - intros ->. reflexivity.
  - intros row. destruct (PrimFloat.eqb (sumAmounts items) PrimFloat.zero) eqn:E;
      [ discriminate | ].
    intros [= <-]. split; [ | reflexivity ].
    intros ->. discriminate E.
Qed.

(** A bucket of the second variant whose amounts cancel is hidden though it
    holds two unpaid items; the first variant shows it. *)
Example bucket_hidden_when_amounts_cancel :
  let buy := mkTransaction "a" "Compra" 120 "2024-01-12" GASTO_CARTAO "GASTO_CARTAO"
               false (Some "2024-01-12") (Some "Torra") None in
  let refund := mkTransaction "b" "Estorno" (-120) "2024-01-13" GASTO_CARTAO
                  "GASTO_CARTAO" false (Some "2024-01-13") (Some "Torra") None in
  AppPro_cardRow (mkClock 0 1704898800000) [buy; refund] = None
  /\ App_card (mkClock 0 1704898800000) [buy; refund] = Some (0%float, false).
Proof. vm_compute. split; reflexivity. Qed.

(* ================================================================== *)
(** * A submit, beyond the collection *)
(* ================================================================== *)

